(** * Over Protocol Python service layer: the five HTTP handlers of
    [python-services/main.py], embedded as programs of a small
    state-and-exception monad over the remote node.

    Layout: Python values used by the handlers (exceptions, [str] of an
    integer, [decimal.Decimal] and its [str], [float] true division), the
    unit conversion [from_wei], the response dictionaries, the monad with its
    call log, the handlers, and then the theorems. *)

From Stdlib Require Import ZArith List String Ascii Bool Lia.
From Stdlib Require Import DecimalString SpecFloat.
From Stdlib Require DecimalZ DecimalPos.
Import ListNotations.
Local Open Scope Z_scope.
Local Open Scope string_scope.

(** ** Python values *)

(** Exceptions.  [HTTPException] is FastAPI's, a subclass of [Exception];
    [PyError cls msg] is any other exception, of class [cls], whose [str] is
    [msg]. *)
Inductive exn : Type :=
| HTTPException (status_code : Z) (detail : string)
| PyError (cls : string) (msg : string).

Inductive outcome (A : Type) : Type :=
| Return (a : A)
| Raise (e : exn).
Arguments Return {A} a.
Arguments Raise {A} e.

(** [str(e)]: the message of an ordinary exception; for an [HTTPException]
    it is Starlette's [__str__], [f"{status_code}: {detail}"]. *)
Definition str_exn (e : exn) : string :=
  match e with
  | HTTPException status_code detail =>
      NilZero.string_of_int (Z.to_int status_code) ++ ": " ++ detail
  | PyError _ msg => msg
  end.

(** The HTTP status the framework answers with when a handler raises. *)
Definition status_of {A} (r : outcome A) : option Z :=
  match r with
  | Raise (HTTPException status_code _) => Some status_code
  | _ => None
  end.

(** [str(n)] for a Python [int]. *)
Definition str_int (n : Z) : string := NilZero.string_of_int (Z.to_int n).

(** [decimal.Decimal], finite values only: sign, coefficient and exponent
    ([_sign], [_int] as a number, [_exp]). *)
Record PyDecimal : Type := mkDecimal {
  dec_sign : bool;
  dec_int : Z;
  dec_exp : Z
}.

(** What [from_wei] returns: the [int] 0 or a [Decimal]. *)
Inductive pynum : Type :=
| PyInt (n : Z)
| PyDec (d : PyDecimal).

Fixpoint zeros (n : nat) : string :=
  match n with
  | O => ""
  | S k => "0" ++ zeros k
  end.

(** ["%+d" % n] *)
Definition fmt_plus_d (n : Z) : string :=
  if (n <? 0)%Z then str_int n else "+" ++ str_int n.

(** [Decimal.__str__] (scientific notation, [eng=False], capitals on). *)
Definition str_decimal (d : PyDecimal) : string :=
  let sign := if dec_sign d then "-" else "" in
  let _int := str_int (dec_int d) in
  let len := Z.of_nat (String.length _int) in
  let leftdigits := dec_exp d + len in
  let dotplace :=
    if ((dec_exp d <=? 0) && (-6 <? leftdigits))%Z then leftdigits else 1 in
  let '(intpart, fracpart) :=
    if (dotplace <=? 0)%Z then
      ("0", "." ++ zeros (Z.to_nat (- dotplace)) ++ _int)
    else if (len <=? dotplace)%Z then
      (_int ++ zeros (Z.to_nat (dotplace - len)), "")
    else
      (substring 0 (Z.to_nat dotplace) _int,
       "." ++ substring (Z.to_nat dotplace) (Z.to_nat (len - dotplace)) _int) in
  let exp :=
    if (leftdigits =? dotplace)%Z then "" else "E" ++ fmt_plus_d (leftdigits - dotplace) in
  sign ++ intpart ++ fracpart ++ exp.

Definition str_number (v : pynum) : string :=
  match v with
  | PyInt n => str_int n
  | PyDec d => str_decimal d
  end.

(** ** Unit conversion: [Web3.from_wei] (eth_utils) *)

Inductive unit_name : Type := gwei | ether.

(** Decimal digits of the unit value [units[unit]], a power of ten. *)
Definition unit_digits (u : unit_name) : nat :=
  match u with
  | gwei => 9%nat
  | ether => 18%nat
  end.

Definition unit_value (u : unit_name) : Z := 10 ^ Z.of_nat (unit_digits u).

Definition MIN_WEI : Z := 0.
Definition MAX_WEI : Z := 2 ^ 256 - 1.

(** The exact branch of [Decimal.__truediv__]: the quotient is brought as
    close to the ideal exponent 0 as its trailing zeros allow
    ([while exp < ideal_exp and coeff % 10 == 0]). *)
Fixpoint to_ideal_exp (fuel : nat) (coeff exp : Z) : Z * Z :=
  match fuel with
  | O => (coeff, exp)
  | S k =>
      if ((exp <? 0) && (coeff mod 10 =? 0))%Z
      then to_ideal_exp k (coeff / 10) (exp + 1)
      else (coeff, exp)
  end.

(** [Decimal(number) / unit_value] under precision 999.  The divisor is
    [10^k] and the dividend has at most 78 digits, so the division is exact
    and the context rounding leaves it as it is. *)
Definition decimal_div_unit (n : Z) (u : unit_name) : PyDecimal :=
  let k := unit_digits u in
  let '(coeff, exp) := to_ideal_exp k n (- Z.of_nat k) in
  mkDecimal false coeff exp.

Definition from_wei (n : Z) (u : unit_name) : outcome pynum :=
  if (n =? 0)%Z then Return (PyInt 0)
  else if ((n <? MIN_WEI) || (MAX_WEI <? n))%Z then
    Raise (PyError "ValueError" "value must be between 1 and 2**256 - 1")
  else Return (PyDec (decimal_div_unit n u)).

(** ** [int / int] and [float * int] *)

Definition prec : Z := 53.
Definition emax : Z := 1024.

Definition float_of_int_exact (n : Z) : spec_float :=
  binary_normalize prec emax n 0 false.

(** [a / b] on two [int]s: the correctly rounded quotient as a binary64
    float, [ZeroDivisionError] for a zero divisor, [OverflowError] when
    the quotient is beyond the float range. *)
Definition int_truediv (a b : Z) : outcome spec_float :=
  if (b =? 0)%Z then Raise (PyError "ZeroDivisionError" "division by zero")
  else if (a =? 0)%Z then Return (S754_zero (b <? 0)%Z)
  else
    match SFdiv prec emax
            (S754_finite (a <? 0)%Z (Z.to_pos (Z.abs a)) 0)
            (S754_finite (b <? 0)%Z (Z.to_pos (Z.abs b)) 0) with
    | S754_infinity _ =>
        Raise (PyError "OverflowError" "integer division result too large for a float")
    | q => Return q
    end.

(** [x * n] for a float [x] and a small [int] [n] (exactly representable). *)
Definition float_mul_int (x : spec_float) (n : Z) : spec_float :=
  SFmul prec emax x (float_of_int_exact n).


(** ** Requests, blocks and response dictionaries *)

Module BalanceRequest.
Record t : Type := mk { address : string }.
End BalanceRequest.

Module TransactionRequest.
Record t : Type := mk {
  from_address : string;
  to_address : string;
  amount : string
}.
End TransactionRequest.

(** The argument of [w3.eth.get_block]: ['latest'] or a block number. *)
Inductive block_identifier : Type :=
| latest
| block_no (n : Z).

(** The fields of a block that the handlers read. *)
Record Block : Type := mkBlock {
  number : Z;
  timestamp : Z;
  transactions : list string;
  gasLimit : Z;
  gasUsed : Z
}.

(** The dictionary passed to [w3.eth.estimate_gas]. *)
Record TxParams : Type := mkTx {
  tx_from : string;
  tx_to : string;
  tx_value : Z
}.

Module Health.
Record t : Type := mk {
  status : string;
  over_protocol_connected : bool;
  chain_id : Z
}.
End Health.

Module NetworkInfo.
Record t : Type := mk {
  chain_id : Z;
  latest_block : Z;
  gas_price_gwei : pynum;
  rpc_url : string
}.
End NetworkInfo.

Module Balance.
Record t : Type := mk {
  address : string;
  balance_over : string;
  balance_wei : string;
  timestamp : Z
}.
End Balance.

Module GasEstimate.
Record t : Type := mk {
  gas_estimate : Z;
  gas_price_gwei : pynum;
  total_cost_over : pynum;
  transaction_cost_over : pynum
}.
End GasEstimate.

Module Analytics.
Record t : Type := mk {
  latest_block_number : Z;
  latest_block_timestamp : Z;
  latest_block_transactions : Z;
  average_block_time_seconds : Z;
  gas_limit : Z;
  gas_used : Z;
  gas_utilization_percent : spec_float
}.
End Analytics.

Definition OVER_PROTOCOL_RPC : string := "https://rpc.overprotocol.com".
Definition CHAIN_ID : Z := 54176.

(** ** The remote node and the handler monad *)

(** A remote call of the [w3] handle, as it appears in the call log. *)
Inductive rpc_call : Type :=
| IsConnected
| BlockNumber
| GasPrice
| GetBalance (address : string)
| GetBlock (id : block_identifier)
| EstimateGas (tx : TxParams).

(** A log entry: the call and, when it raised, the exception. *)
Inductive event : Type :=
| Called (c : rpc_call) (raised : option exn).

(** The connectivity probe is not a query of chain data. *)
Definition is_query (ev : event) : bool :=
  match ev with
  | Called IsConnected _ => false
  | Called _ _ => true
  end.

Definition queries (log : list event) : list event := filter is_query log.

(** What [w3.is_connected()] does: it answers [True] or [False] (a refused
    or timed-out connection is caught inside the client and answered
    [False]), or it raises an exception of the client library, of class
    [cls] with message [msg], as on a reply that is not JSON-RPC.  The
    client library does not know the web framework, so what it raises here
    is not an [HTTPException]. *)
Inductive probe_result : Type :=
| Answer (b : bool)
| Fault (cls : string) (msg : string).

Definition probe_outcome (a : probe_result) : outcome bool :=
  match a with
  | Answer b => Return b
  | Fault cls msg => Raise (PyError cls msg)
  end.

Section Service.

(** The state of the remote node and of the network to it. *)
Context {World : Type}.

(** The [w3] handle.  [is_connected] is the probe, a remote call like the
    others; [is_address] and [to_wei] are local functions of the client
    library; the [eth_] fields are remote calls, each of which may raise
    and may change the world. *)
Record Web3 : Type := mkWeb3 {
  is_connected : World -> probe_result * World;
  is_address : string -> bool;
  to_wei : string -> unit_name -> outcome Z;
  eth_block_number : World -> outcome Z * World;
  eth_gas_price : World -> outcome Z * World;
  eth_get_balance : string -> World -> outcome Z * World;
  eth_get_block : block_identifier -> World -> outcome Block * World;
  eth_estimate_gas : TxParams -> World -> outcome Z * World
}.

Definition state : Type := World * list event.

Definition M (A : Type) : Type := state -> outcome A * state.

Definition ret {A} (a : A) : M A := fun s => (Return a, s).

Definition raise {A} (e : exn) : M A := fun s => (Raise e, s).

Definition bind {A B} (m : M A) (k : A -> M B) : M B :=
  fun s =>
    match m s with
    | (Return a, s') => k a s'
    | (Raise e, s') => (Raise e, s')
    end.

(** [try: body except Exception as e: handler e] *)
Definition try_except {A} (body : M A) (handler : exn -> M A) : M A :=
  fun s =>
    match body s with
    | (Return a, s') => (Return a, s')
    | (Raise e, s') => handler e s'
    end.

(** A local computation that may raise. *)
Definition lift {A} (r : outcome A) : M A := fun s => (r, s).

Definition raised_by {A} (r : outcome A) : option exn :=
  match r with
  | Return _ => None
  | Raise e => Some e
  end.

(** A remote call: run it against the world and log it. *)
Definition rpc {A} (c : rpc_call) (op : World -> outcome A * World) : M A :=
  fun s =>
    let '(r, w') := op (fst s) in
    (r, (w', (snd s ++ [Called c (raised_by r)])%list)).

Definition probe (h : Web3) : M bool :=
  rpc IsConnected
      (fun w => let '(a, w') := is_connected h w in (probe_outcome a, w')).

(** A log in which no call raised. *)
Definition clean (log : list event) : Prop :=
  forall c e, ~ In (Called c (Some e)) log.

(** A computation that a raising query aborts: started on a clean log, it
    either returns with a clean log, or raises, and then any exception
    the log records is that of a query and is the one it raises. *)
Definition aborts_on_raise {A} (m : M A) : Prop :=
  forall s r s',
    clean (snd s) -> m s = (r, s') ->
    match r with
    | Return _ => clean (snd s')
    | Raise e0 =>
        forall c e, In (Called c (Some e)) (snd s') -> e = e0 /\ c <> IsConnected
    end.

(** A handler that turns the exception of a query into a 500 and lets the
    exception of the probe through as it is. *)
Definition reports_500 {A} (m : M A) : Prop :=
  forall s r s',
    clean (snd s) -> m s = (r, s') ->
    forall c e, In (Called c (Some e)) (snd s') ->
                (c <> IsConnected -> r = Raise (HTTPException 500 (str_exn e)))
                /\ (c = IsConnected -> r = Raise e).

End Service.

Arguments Web3 World : clear implicits.

Notation "x <- m ;; k" := (bind m (fun x => k))
  (at level 61, m at next level, right associativity).
Notation "m ;;; k" := (bind m (fun _ => k))
  (at level 61, right associativity).

(** ** The handlers of [main.py] *)

Section Handlers.

Context {World : Type}.

(** The module-level handle: [None] when its construction failed. *)
Variable w3 : option (Web3 World).

Definition not_connected : exn :=
  HTTPException 503 "Not connected to Over Protocol".

(** [except Exception as e: raise HTTPException(status_code=500, detail=str(e))].
    The [logger.error] line before it only writes to the log of the process. *)
Definition internal_error {A} (e : exn) : M (World := World) A :=
  raise (HTTPException 500 (str_exn e)).

(** [w3.is_connected() if w3 else False] *)
Definition connected : M bool :=
  match w3 with
  | Some h => probe h
  | None => ret false
  end.

(** [GET /health] *)
Definition health_check : M Health.t :=
  over_protocol_connected <- connected ;;
  ret (Health.mk "healthy" over_protocol_connected CHAIN_ID).

(** [if not w3 or not w3.is_connected(): raise HTTPException(503, ...)],
    followed by the rest of the handler, which uses the handle. *)
Definition when_connected {A} (rest : Web3 World -> M A) : M A :=
  match w3 with
  | None => raise not_connected
  | Some h =>
      is_up <- probe h ;;
      if negb is_up then raise not_connected else rest h
  end.

(** [GET /network/info] *)
Definition get_network_info : M NetworkInfo.t :=
  when_connected (fun h =>
    try_except
      (latest_block <- rpc BlockNumber (eth_block_number h) ;;
       gas_price <- rpc GasPrice (eth_gas_price h) ;;
       gas_price_gwei <- lift (from_wei gas_price gwei) ;;
       ret (NetworkInfo.mk CHAIN_ID latest_block gas_price_gwei OVER_PROTOCOL_RPC))
      internal_error).

(** [POST /balance/check] *)
Definition check_balance (request : BalanceRequest.t) : M Balance.t :=
  when_connected (fun h =>
    try_except
      ((if negb (is_address h (BalanceRequest.address request))
        then raise (HTTPException 400 "Invalid address format")
        else ret tt) ;;;
       balance_wei <- rpc (GetBalance (BalanceRequest.address request))
                          (eth_get_balance h (BalanceRequest.address request)) ;;
       balance_over <- lift (from_wei balance_wei ether) ;;
       latest_block <- rpc (GetBlock latest) (eth_get_block h latest) ;;
       ret (Balance.mk (BalanceRequest.address request)
                       (str_number balance_over)
                       (str_int balance_wei)
                       (timestamp latest_block)))
      internal_error).

(** [POST /transaction/estimate-gas] *)
Definition estimate_gas (request : TransactionRequest.t) : M GasEstimate.t :=
  when_connected (fun h =>
    try_except
      ((if negb (is_address h (TransactionRequest.from_address request))
           || negb (is_address h (TransactionRequest.to_address request))
        then raise (HTTPException 400 "Invalid address format")
        else ret tt) ;;;
       amount_wei <- lift (to_wei h (TransactionRequest.amount request) ether) ;;
       gas_estimate <- (let tx := mkTx (TransactionRequest.from_address request)
                                       (TransactionRequest.to_address request)
                                       amount_wei in
                        rpc (EstimateGas tx) (eth_estimate_gas h tx)) ;;
       gas_price <- rpc GasPrice (eth_gas_price h) ;;
       let total_cost_wei := gas_estimate * gas_price + amount_wei in
       gas_price_gwei <- lift (from_wei gas_price gwei) ;;
       total_cost_over <- lift (from_wei total_cost_wei ether) ;;
       transaction_cost_over <- lift (from_wei (gas_estimate * gas_price) ether) ;;
       ret (GasEstimate.mk gas_estimate gas_price_gwei
                           total_cost_over transaction_cost_over))
      internal_error).

(** Lines 135-138: [block_time = 0], replaced by the difference of the
    two timestamps when the latest block has a predecessor. *)
Definition block_time_of (h : Web3 World) (latest_block : Block) : M Z :=
  if (number latest_block >? 0)%Z
  then
    prev_block <- (let id := block_no (number latest_block - 1) in
                   rpc (GetBlock id) (eth_get_block h id)) ;;
    ret (timestamp latest_block - timestamp prev_block)
  else ret 0.

(** [GET /analytics/network-stats] *)
Definition get_network_analytics : M Analytics.t :=
  when_connected (fun h =>
    try_except
      (latest_block <- rpc (GetBlock latest) (eth_get_block h latest) ;;
       block_time <- block_time_of h latest_block ;;
       ratio <- lift (int_truediv (gasUsed latest_block) (gasLimit latest_block)) ;;
       ret (Analytics.mk (number latest_block)
                         (timestamp latest_block)
                         (Z.of_nat (List.length (transactions latest_block)))
                         block_time
                         (gasLimit latest_block)
                         (gasUsed latest_block)
                         (float_mul_int ratio 100)))
      internal_error).

End Handlers.

(** The amount of wei that a converted value stands for: the value times
    the unit, [coefficient * 10^(exponent + digits of the unit)]. *)
Definition in_wei (v : pynum) (u : unit_name) : Z :=
  match v with
  | PyInt n => n * unit_value u
  | PyDec d =>
      (if dec_sign d then -1 else 1)
      * (dec_int d * 10 ^ (dec_exp d + Z.of_nat (unit_digits u)))
  end.

(** ** A scripted node, for concrete scenarios *)

Module Mock.

(** The answers a test double gives; the world counts the requests it
    has served. *)
Record Node : Type := mkNode {
  up : bool;
  valid_address : string -> bool;
  parse_amount : string -> unit_name -> outcome Z;
  height : outcome Z;
  price : outcome Z;
  balance : string -> outcome Z;
  block : block_identifier -> outcome Block;
  gas : TxParams -> outcome Z
}.

Definition served {A} (a : A) : nat -> A * nat := fun n => (a, S n).

Definition handle (n : Node) : Web3 nat :=
  @mkWeb3 nat
    (served (Answer (up n)))
    (valid_address n)
    (parse_amount n)
    (served (height n))
    (served (price n))
    (fun a => served (balance n a))
    (fun id => served (block n id))
    (fun tx => served (gas n tx)).

Definition is_lower_hex (c : ascii) : bool :=
  let n := nat_of_ascii c in
  ((48 <=? n) && (n <=? 57) || (97 <=? n) && (n <=? 102))%nat.

Fixpoint all_lower_hex (s : string) : bool :=
  match s with
  | EmptyString => true
  | String c rest => is_lower_hex c && all_lower_hex rest
  end.

(** A format check standing for [is_address]: ["0x"] and 40 lower-case
    hexadecimal digits, a form the client library accepts. *)
Definition hex_address (s : string) : bool :=
  match s with
  | String "0" (String "x" rest) =>
      (String.length rest =? 40)%nat && all_lower_hex rest
  | _ => false
  end.

Definition alice : string := "0xabcdabcdabcdabcdabcdabcdabcdabcdabcdabcd".
Definition bob : string := "0x00000000000000000000000000000000000000b0".

(** [decimal.Decimal("abc")] *)
Definition conversion_syntax : exn :=
  PyError "InvalidOperation" "[<class 'decimal.ConversionSyntax'>]".

(** A stub of [to_wei] for the amounts of the scenarios: one and a half
    ether, and the largest amount [to_wei] accepts, [2**256 - 1] wei. *)
Definition amounts (s : string) (u : unit_name) : outcome Z :=
  if (s =? "1.5")%string then Return 1500000000000000000
  else if (s =? "115792089237316195423570985008687907853269984665640564039457.584007913129639935")%string
  then Return MAX_WEI
  else Raise conversion_syntax.

Definition block_N : Block := mkBlock 7 1000 ["0xaa"; "0xbb"] 30000000 15000000.
Definition block_N_minus_1 : Block := mkBlock 6 988 [] 30000000 12000000.
Definition genesis : Block := mkBlock 0 1700000000 [] 30000000 0.

Definition chain (id : block_identifier) : outcome Block :=
  match id with
  | latest => Return block_N
  | block_no n =>
      if (n =? 6)%Z then Return block_N_minus_1
      else if (n =? 7)%Z then Return block_N
      else Raise (PyError "BlockNotFound" "Block with id: 0x0 not found.")
  end.

(** A node that is up, with a chain of height 7, a gas price of 1 gwei,
    one ether on every account and 21000 gas for every transfer. *)
Definition node : Node :=
  mkNode true hex_address amounts
         (Return 7) (Return 1000000000)
         (fun _ => Return 1000000000000000000)
         chain
         (fun _ => Return 21000).

(** The same node behind a connection that is down. *)
Definition node_down : Node :=
  mkNode false hex_address amounts
         (Return 7) (Return 1000000000)
         (fun _ => Return 1000000000000000000)
         chain
         (fun _ => Return 21000).

(** A node whose only block is the genesis block. *)
Definition node_genesis : Node :=
  mkNode true hex_address amounts
         (Return 0) (Return 1000000000)
         (fun _ => Return 0)
         (fun _ => Return genesis)
         (fun _ => Return 21000).

(** A node that answers every query with a timeout. *)
Definition timeout : exn :=
  PyError "ReadTimeout" "HTTPSConnectionPool(host='rpc.overprotocol.com', port=443): Read timed out.".

Definition node_failing : Node :=
  mkNode true hex_address amounts
         (Raise timeout) (Raise timeout)
         (fun _ => Raise timeout)
         (fun _ => Raise timeout)
         (fun _ => Raise timeout).

(** The handle of [node] behind a connection that is down at the first
    probe and up from the second on. *)
Definition recovering : Web3 nat :=
  @mkWeb3 nat
    (fun n => (Answer (Nat.ltb 0 n), S n))
    (valid_address node)
    (parse_amount node)
    (served (height node))
    (served (price node))
    (fun a => served (balance node a))
    (fun id => served (block node id))
    (fun tx => served (gas node tx)).

(** What the client raises on a reply that is no JSON at all. *)
Definition not_json : exn :=
  PyError "JSONDecodeError" "Expecting value: line 1 column 1 (char 0)".

(** The handle of [node] behind an endpoint that answers the probe with a
    page that is not JSON-RPC, so that [is_connected] raises. *)
Definition garbled : Web3 nat :=
  @mkWeb3 nat
    (served (Fault "JSONDecodeError" "Expecting value: line 1 column 1 (char 0)"))
    (valid_address node)
    (parse_amount node)
    (served (height node))
    (served (price node))
    (fun a => served (balance node a))
    (fun id => served (block node id))
    (fun tx => served (gas node tx)).

End Mock.

(** ** Start-up, and what the call log says *)

(** Lines 25-31: the handle is built inside a [try] block together with a
    first probe, whose answer only goes to the process log; any exception
    leaves [w3 = None].  [construct] is the outcome of
    [Web3(Web3.HTTPProvider(OVER_PROTOCOL_RPC))]. *)
Definition initialize {World : Type} (construct : outcome (Web3 World))
  : M (option (Web3 World)) :=
  try_except
    (h <- lift construct ;;
     probe h ;;;
     ret (Some h))
    (fun _ => ret None).

(** The calls of a log, in order, without their outcomes. *)
Definition call_of (ev : event) : rpc_call :=
  match ev with
  | Called c _ => c
  end.

Definition calls (log : list event) : list rpc_call := map call_of log.

(** A log in which at most the last call raised. *)
Definition fails_last (log : list event) : Prop :=
  clean log \/ exists l c e, log = (l ++ [Called c (Some e)])%list /\ clean l.

(** A computation that stops at the first call that raises: started on a
    clean log it returns with a clean log, or raises on a clean log, or
    raises the exception of its last call, the only one that raised. *)
Definition stops_at_failure {World A : Type} (m : M (World := World) A) : Prop :=
  forall s r s',
    clean (snd s) -> m s = (r, s') ->
    match r with
    | Return _ => clean (snd s')
    | Raise _ => fails_last (snd s')
    end.

(** The digits of a decimal string, read back as an integer. *)
Definition read_int (s : string) : option Z :=
  option_map Z.of_int (NilZero.int_of_string s).

(** [e] is what the probe of the handle raises in the world [w]. *)
Definition probe_fault {World : Type} (w3 : option (Web3 World)) (w : World)
    (e : exn) : Prop :=
  exists h cls msg w',
    w3 = Some h /\ is_connected h w = (Fault cls msg, w') /\ e = PyError cls msg.

(** The failures of a handler behind the connectivity check: the 503 of
    the check, the 500 of its [except] clause, and the exception of the
    probe, which nothing catches. *)
Definition guarded_answer {World A : Type} (w3 : option (Web3 World)) (w : World)
    (r : outcome A) : Prop :=
  match r with
  | Return _ => True
  | Raise e =>
      e = HTTPException 503 "Not connected to Over Protocol"
      \/ (exists e0, e = HTTPException 500 (str_exn e0))
      \/ probe_fault w3 w e
  end.

(** ** What it means for a float to be the rounding of a quotient *)

(** Where [N / D] lies between two consecutive integers: on the lower one,
    or below, at or above the middle. *)
Definition loc_of (N D : Z) : location :=
  if (N mod D =? 0)%Z then loc_Exact else loc_Inexact (2 * (N mod D) ?= D)%Z.

(** The shift record [r] holds the integer part of [N / D] and its place
    between that integer and the next. *)
Definition located (N D : Z) (r : shr_record) : Prop :=
  shr_m r = N / D /\ loc_of_shr_record r = loc_of N D.

(** The value [num/den * 2^x] and the float [m * 2^e] differ by at most
    half a unit in the last place, [2^e / 2]; stated over the integers
    after scaling both by [2^(s - x)]. *)
Definition near (m e num den x : Z) : Prop :=
  exists s, 0 <= s /\ 0 <= e - x + s
            /\ Z.abs (2 * (m * 2 ^ (e - x + s) * den - num * 2 ^ s))
               <= 2 ^ (e - x + s) * den.

(** [f] is a binary64 rounding of the positive value [num/den * 2^x]: a
    float with a 53-bit mantissa (or a shorter one at the least exponent)
    within half a unit in the last place of the value; zero when the
    value is at most half the least positive float; infinity when such a
    float would need an exponent beyond the largest one. *)
Definition rounded (num den x : Z) (f : spec_float) : Prop :=
  match f with
  | S754_zero false => near 0 (-1074) num den x
  | S754_finite false m e =>
      Z.pos m < 2 ^ 53 /\ -1074 <= e <= 971
      /\ (2 ^ 52 <= Z.pos m \/ e = -1074)
      /\ near (Z.pos m) e num den x
  | S754_infinity false =>
      exists m e, 2 ^ 52 <= m < 2 ^ 53 /\ 971 < e /\ near m e num den x
  | _ => False
  end.

(** * Properties *)

(** ** The conversion to the major unit is exact *)

Lemma to_ideal_exp_exact (fuel : nat) :
  forall coeff exp coeff' exp',
    to_ideal_exp fuel coeff exp = (coeff', exp') ->
    - Z.of_nat fuel <= exp <= 0 ->
    exp <= exp' <= 0 /\ coeff' * 10 ^ (exp' - exp) = coeff.
Proof.
  induction fuel as [|k IH]; intros c e c' e' Hrun Hexp.
  - cbn in Hrun. injection Hrun as <- <-.
    rewrite Z.sub_diag. cbn [Z.pow]. lia.
  - cbn [to_ideal_exp] in Hrun.
    destruct ((e <? 0) && (c mod 10 =? 0))%Z eqn:Hstep.
    + apply andb_prop in Hstep as [Hneg Hzero].
      apply Z.ltb_lt in Hneg. apply Z.eqb_eq in Hzero.
      apply IH in Hrun; [|lia].
      destruct Hrun as [Hbounds Hval].
      split; [lia|].
      replace (e' - e) with (Z.succ (e' - (e + 1))) by lia.
      rewrite Z.pow_succ_r by lia.
      rewrite Z.mul_assoc, (Z.mul_comm c' 10), <- Z.mul_assoc, Hval.
      pose proof (Z.div_mod c 10 ltac:(lia)). lia.
    + injection Hrun as <- <-.
      rewrite Z.sub_diag. cbn [Z.pow]. lia.
Qed.

Lemma unit_value_pos (u : unit_name) : 0 < unit_value u.
Proof. destruct u; reflexivity. Qed.

(** A value in the accepted range converts, and the converted value times
    the unit is the value again. *)
Lemma from_wei_exact (n : Z) (u : unit_name) :
  0 <= n <= MAX_WEI ->
  exists v, from_wei n u = Return v /\ in_wei v u = n.
Proof.
  intros [Hlo Hhi]. unfold from_wei.
  destruct (n =? 0)%Z eqn:Hz.
  - apply Z.eqb_eq in Hz. subst n. exists (PyInt 0). split; reflexivity.
  - assert (Hrange : ((n <? MIN_WEI) || (MAX_WEI <? n))%Z = false).
    { apply orb_false_iff. split; apply Z.ltb_ge; unfold MIN_WEI; lia. }
    rewrite Hrange. eexists. split; [reflexivity|].
    unfold decimal_div_unit.
    destruct (to_ideal_exp (unit_digits u) n (- Z.of_nat (unit_digits u)))
      as [c e] eqn:Hrun.
    apply to_ideal_exp_exact in Hrun; [|lia].
    destruct Hrun as [Hbounds Hval].
    cbn [in_wei dec_sign dec_int dec_exp].
    replace (e + Z.of_nat (unit_digits u)) with (e - - Z.of_nat (unit_digits u)) by lia.
    rewrite Hval. lia.
Qed.

Lemma from_wei_rejects (n : Z) (u : unit_name) :
  MAX_WEI < n ->
  from_wei n u = Raise (PyError "ValueError" "value must be between 1 and 2**256 - 1").
Proof.
  intros Hbig. unfold from_wei.
  assert (Hpos : 0 < MAX_WEI) by reflexivity.
  replace (n =? 0)%Z with false by (symmetry; apply Z.eqb_neq; lia).
  replace (MAX_WEI <? n)%Z with true by (symmetry; apply Z.ltb_lt; lia).
  rewrite orb_true_r. reflexivity.
Qed.

Lemma int_truediv_by_zero (a : Z) :
  int_truediv a 0 = Raise (PyError "ZeroDivisionError" "division by zero").
Proof. reflexivity. Qed.

(** ** Division and multiplication round to nearest *)

Lemma loc_of_shr_record_of_loc m l :
  loc_of_shr_record (shr_record_of_loc m l) = l.
Proof. destruct l as [|[ | | ]]; reflexivity. Qed.

Lemma shr_m_shr_record_of_loc m l : shr_m (shr_record_of_loc m l) = m.
Proof. destruct l as [|[ | | ]]; reflexivity. Qed.

Lemma shr_1_m r : 0 <= shr_m r -> shr_m (shr_1 r) = shr_m r / 2.
Proof.
  destruct r as [m rb sb]. cbn [shr_m]. intros Hm.
  destruct m as [|p|p]; [reflexivity| |lia].
  destruct p as [p|p|]; cbn [shr_1 shr_m].
  - rewrite Pos2Z.inj_xI.
    apply (Z.div_unique_pos _ _ _ 1); lia.
  - rewrite Pos2Z.inj_xO.
    apply (Z.div_unique_pos _ _ _ 0); lia.
  - reflexivity.
Qed.

Lemma shr_1_bits r :
  0 <= shr_m r ->
  shr_r (shr_1 r) = Z.odd (shr_m r) /\ shr_s (shr_1 r) = shr_r r || shr_s r.
Proof.
  destruct r as [m rb sb]. cbn [shr_m shr_r shr_s]. intros Hm.
  destruct m as [|p|p]; [split; reflexivity| |lia].
  destruct p as [p|p|]; split; reflexivity.
Qed.

Lemma loc_exact_iff r :
  loc_of_shr_record r = loc_Exact <-> shr_r r || shr_s r = false.
Proof. destruct r as [m [|] [|]]; cbn; split; congruence. Qed.

Lemma shr_1_located N D r :
  0 < D -> 0 <= N -> located N D r -> located N (2 * D) (shr_1 r).
Proof.
  intros HD HN [Hm Hloc].
  assert (Hm0 : 0 <= shr_m r) by (rewrite Hm; apply Z.div_pos; lia).
  destruct (shr_1_bits r Hm0) as [Hr Hs].
  split.
  - rewrite (shr_1_m r Hm0), Hm, Z.div_div by lia.
    f_equal. lia.
  - assert (Hx : shr_r r || shr_s r = negb (N mod D =? 0)%Z).
    { unfold loc_of in Hloc. destruct (N mod D =? 0)%Z eqn:Hz.
      - apply loc_exact_iff. exact Hloc.
      - cbn. destruct (shr_r r || shr_s r) eqn:Ho; [reflexivity|].
        apply loc_exact_iff in Ho. congruence. }
    assert (Hlhs : loc_of_shr_record (shr_1 r)
                   = match Z.odd (shr_m r), (N mod D =? 0)%Z with
                     | false, true => loc_Exact
                     | false, false => loc_Inexact Lt
                     | true, true => loc_Inexact Eq
                     | true, false => loc_Inexact Gt
                     end).
    { destruct (shr_1 r) as [m' rb' sb']. cbn [shr_r shr_s] in Hr, Hs.
      subst rb' sb'. rewrite Hx.
      destruct (Z.odd (shr_m r)), (N mod D =? 0)%Z; reflexivity. }
    rewrite Hlhs. unfold loc_of.
    rewrite (Z.mul_comm 2 D), Z.rem_mul_r by lia.
    pose proof (Z.mod_pos_bound N D HD) as Hr0.
    rewrite <- Hm.
    pose proof (Zodd_mod (shr_m r)) as Hodd.
    pose proof (Z.mod_pos_bound (shr_m r) 2 ltac:(lia)) as Hpar.
    destruct (Z.odd (shr_m r)) eqn:Ho.
    + assert (H1 : shr_m r mod 2 = 1).
      { destruct (Z.eq_dec (shr_m r mod 2) 1) as [E|E]; [exact E|].
        rewrite (proj2 (Z.eqb_neq _ _) E) in Hodd. discriminate. }
      rewrite H1, Z.mul_1_r.
      destruct (N mod D =? 0)%Z eqn:Hz.
      * apply Z.eqb_eq in Hz.
        rewrite (proj2 (Z.eqb_neq _ _)) by lia.
        f_equal. symmetry. apply Z.compare_eq_iff. lia.
      * apply Z.eqb_neq in Hz.
        rewrite (proj2 (Z.eqb_neq _ _)) by lia.
        f_equal. symmetry. apply Z.compare_gt_iff. lia.
    + assert (H0 : shr_m r mod 2 = 0).
      { destruct (Z.eq_dec (shr_m r mod 2) 1) as [E|E]; [|lia].
        rewrite E in Hodd. discriminate. }
      rewrite H0, Z.mul_0_r, Z.add_0_r.
      destruct (N mod D =? 0)%Z eqn:Hz; [reflexivity|].
      apply Z.eqb_neq in Hz.
      f_equal. symmetry. apply Z.compare_lt_iff. lia.
Qed.

Lemma pow2_xI p : 2 ^ Z.pos p~1 = 2 ^ Z.pos p * (2 ^ Z.pos p * 2).
Proof.
  rewrite (Pos2Z.inj_xI p).
  replace (2 * Z.pos p + 1) with (Z.pos p + (Z.pos p + 1)) by lia.
  rewrite !Z.pow_add_r by lia. reflexivity.
Qed.

Lemma pow2_xO p : 2 ^ Z.pos p~0 = 2 ^ Z.pos p * 2 ^ Z.pos p.
Proof.
  rewrite (Pos2Z.inj_xO p).
  replace (2 * Z.pos p) with (Z.pos p + Z.pos p) by lia.
  rewrite Z.pow_add_r by lia. reflexivity.
Qed.

Lemma iter_pos_located p :
  forall N D r, 0 < D -> 0 <= N -> located N D r ->
                located N (2 ^ Z.pos p * D) (iter_pos shr_1 p r).
Proof.
  induction p as [p IH|p IH|]; intros N D r HD HN Hr; cbn [iter_pos].
  - assert (Hpow : 0 < 2 ^ Z.pos p) by (apply Z.pow_pos_nonneg; lia).
    replace (2 ^ Z.pos p~1 * D) with (2 ^ Z.pos p * (2 ^ Z.pos p * (2 * D)))
      by (rewrite pow2_xI; ring).
    apply IH; [lia|lia|]. apply IH; [lia|lia|]. apply shr_1_located; assumption.
  - assert (Hpow : 0 < 2 ^ Z.pos p) by (apply Z.pow_pos_nonneg; lia).
    replace (2 ^ Z.pos p~0 * D) with (2 ^ Z.pos p * (2 ^ Z.pos p * D))
      by (rewrite pow2_xO; ring).
    apply IH; [lia|lia|]. apply IH; assumption.
  - rewrite Z.pow_1_r. apply shr_1_located; assumption.
Qed.

(** [shr] by [n] places. *)
Lemma shr_located N D r e n :
  0 < D -> 0 <= N -> located N D r ->
  located N (2 ^ Z.max 0 n * D) (fst (shr r e n)) /\ snd (shr r e n) = e + Z.max 0 n.
Proof.
  intros HD HN Hr. destruct n as [|p|p]; cbn [shr fst snd].
  - rewrite Z.max_id, Z.pow_0_r, Z.mul_1_l. split; [exact Hr | lia].
  - rewrite Z.max_r by lia. split; [apply iter_pos_located; assumption | reflexivity].
  - rewrite Z.max_l by lia. rewrite Z.pow_0_r, Z.mul_1_l. split; [exact Hr | lia].
Qed.

(** Rounding to nearest: the chosen integer is within one half of [N / D]. *)
Lemma round_nearest_even_near N D r :
  0 < D -> 0 <= N -> located N D r ->
  let m := round_nearest_even (shr_m r) (loc_of_shr_record r) in
  shr_m r <= m <= shr_m r + 1 /\ Z.abs (2 * (m * D - N)) <= D.
Proof.
  intros HD HN [Hm Hloc]. cbv zeta. rewrite Hloc. unfold loc_of.
  pose proof (Z.div_mod N D ltac:(lia)) as Hdiv.
  pose proof (Z.mod_pos_bound N D HD) as Hr0.
  rewrite Hm.
  destruct (N mod D =? 0)%Z eqn:Hz; cbn [round_nearest_even].
  - apply Z.eqb_eq in Hz. split; [lia|]. nia.
  - apply Z.eqb_neq in Hz.
    destruct (Z.compare_spec (2 * (N mod D)) D) as [Heq|Hlt|Hgt].
    + destruct (Z.even (N / D)); split; try lia; nia.
    + split; [lia|]. nia.
    + split; [lia|]. nia.
Qed.

(** ** Binary digits *)

Lemma digits2_pos_size p : digits2_pos p = Pos.size p.
Proof. induction p as [p IH|p IH|]; cbn; rewrite ?IH; reflexivity. Qed.

Lemma Zdigits2_bounds m :
  0 < m -> 1 <= Zdigits2 m /\ 2 ^ (Zdigits2 m - 1) <= m < 2 ^ Zdigits2 m.
Proof.
  intros Hm. destruct m as [|p|p]; try lia. cbn [Zdigits2].
  rewrite digits2_pos_size.
  pose proof (Pos.size_gt p) as Hgt. pose proof (Pos.size_le p) as Hle.
  apply Pos2Z.pos_lt_pos in Hgt. apply Pos2Z.pos_le_pos in Hle.
  rewrite Pos2Z.inj_pow in Hgt, Hle. rewrite (Pos2Z.inj_xO p) in Hle.
  change (Z.pos 2) with 2 in *.
  split; [lia|]. split; [|exact Hgt].
  replace (Z.pos (Pos.size p)) with (Z.succ (Z.pos (Pos.size p) - 1)) in Hle by lia.
  rewrite Z.pow_succ_r in Hle by lia. lia.
Qed.

Lemma Zdigits2_le m k : 0 <= m -> 0 <= k -> m < 2 ^ k -> Zdigits2 m <= k.
Proof.
  intros Hm Hk Hlt.
  destruct (Z.eq_dec m 0) as [->|Hnz]; [cbn; lia|].
  destruct (Zdigits2_bounds m ltac:(lia)) as [Hd [Hlo _]].
  destruct (Z_lt_le_dec k (Zdigits2 m)) as [Hbig|]; [|lia].
  assert (2 ^ k <= 2 ^ (Zdigits2 m - 1)) by (apply Z.pow_le_mono_r; lia).
  lia.
Qed.

Lemma Zdigits2_ge m k : 0 <= k -> 2 ^ k <= m -> k + 1 <= Zdigits2 m.
Proof.
  intros Hk Hle.
  assert (Hpos : 0 < 2 ^ k) by (apply Z.pow_pos_nonneg; lia).
  destruct (Zdigits2_bounds m ltac:(lia)) as [Hd [_ Hhi]].
  destruct (Z_lt_le_dec k (Zdigits2 m)) as [|Hsmall]; [lia|].
  assert (2 ^ Zdigits2 m <= 2 ^ k) by (apply Z.pow_le_mono_r; lia).
  lia.
Qed.

Lemma fexp_64 e : fexp 53 1024 e = Z.max (e - 53) (-1074).
Proof. reflexivity. Qed.

(** ** [binary_round_aux] rounds to within half a unit in the last place *)

Lemma binary_round_aux_near sx mx ex lx N D :
  0 < D -> 0 <= N -> mx = N / D -> lx = loc_of N D ->
  ex <= Z.max (Zdigits2 mx + ex - 53) (-1074) ->
  exists m e,
    0 <= m < 2 ^ 53
    /\ ex <= e /\ -1074 <= e
    /\ Z.abs (2 * (m * 2 ^ (e - ex) * D - N)) <= 2 ^ (e - ex) * D
    /\ (2 ^ 52 <= m \/ e = -1074)
    /\ binary_round_aux 53 1024 sx mx ex lx
       = match m with
         | 0 => S754_zero sx
         | Z.pos p => if (e <=? 971)%Z then S754_finite sx p e else S754_infinity sx
         | Z.neg _ => S754_nan
         end.
Proof.
  intros HD HN Hmx Hlx Hfine.
  assert (Hmx0 : 0 <= mx) by (rewrite Hmx; apply Z.div_pos; lia).
  unfold binary_round_aux, shr_fexp. rewrite !fexp_64.
  set (n1 := Z.max (Zdigits2 mx + ex - 53) (-1074) - ex).
  assert (Hr0 : located N D (shr_record_of_loc mx lx)).
  { split; [rewrite shr_m_shr_record_of_loc; exact Hmx
           | rewrite loc_of_shr_record_of_loc; exact Hlx]. }
  destruct (shr_located N D _ ex n1 HD HN Hr0) as [Hr1 He1].
  destruct (shr (shr_record_of_loc mx lx) ex n1) as [r1 e1].
  cbn [fst snd] in Hr1, He1.
  cbv beta iota. rewrite fexp_64. change (1024 - 53) with 971.
  set (k1 := Z.max 0 n1) in *.
  assert (Hk1 : 0 <= k1) by lia.
  assert (Hp1 : 0 < 2 ^ k1) by (apply Z.pow_pos_nonneg; lia).
  assert (HD1 : 0 < 2 ^ k1 * D) by lia.
  destruct (round_nearest_even_near N (2 ^ k1 * D) r1 HD1 HN Hr1) as [Hmr Hnear].
  cbv zeta in Hmr, Hnear.
  set (mr := round_nearest_even (shr_m r1) (loc_of_shr_record r1)) in *.
  destruct Hr1 as [Hm1 _].
  assert (Hm1' : shr_m r1 = mx / 2 ^ k1).
  { rewrite Hm1, Hmx, Z.div_div by lia. f_equal. ring. }
  (* the shifted mantissa fits in 53 bits, and the exponent is in range *)
  assert (HP1 : 0 <= shr_m r1 < 2 ^ 53 /\ -1074 <= e1).
  { split; [split|].
    - rewrite Hm1'. apply Z.div_pos; lia.
    - rewrite Hm1'. destruct (Z.eq_dec mx 0) as [->|Hnz].
      + rewrite Z.div_0_l by lia. reflexivity.
      + destruct (Zdigits2_bounds mx ltac:(lia)) as [Hd [_ Hhi]].
        apply Z.div_lt_upper_bound; [lia|].
        rewrite <- Z.pow_add_r by lia.
        eapply Z.lt_le_trans; [exact Hhi|].
        apply Z.pow_le_mono_r; lia.
    - lia. }
  destruct HP1 as [[Hm1lo Hm1hi] He1lo].
  (* it has 53 bits unless the exponent is the least one *)
  assert (Hcanon : 2 ^ 52 <= shr_m r1 \/ e1 = -1074).
  { destruct (Z.eq_dec e1 (-1074)) as [|Hnormal]; [right; assumption|left].
    assert (Hn1 : n1 = Zdigits2 mx - 53 /\ 0 <= n1) by (unfold n1 in *; lia).
    destruct Hn1 as [Hn1 Hn1pos].
    assert (Hmxpos : 0 < mx).
    { destruct (Z.eq_dec mx 0) as [Hz|]; [|lia].
      rewrite Hz in Hn1. cbn [Zdigits2] in Hn1. lia. }
    destruct (Zdigits2_bounds mx Hmxpos) as [Hd [Hlo _]].
    rewrite Hm1'. apply Z.div_le_lower_bound; [lia|].
    rewrite <- Z.pow_add_r by lia.
    eapply Z.le_trans; [|exact Hlo].
    apply Z.pow_le_mono_r; lia. }
  (* the second shift: by one place when rounding carried to 2^53 *)
  set (n2 := Z.max (Zdigits2 mr + e1 - 53) (-1074) - e1).
  assert (Hr2 : located mr 1 (shr_record_of_loc mr loc_Exact)).
  { split; [cbn; rewrite Z.div_1_r; reflexivity|].
    cbn. unfold loc_of. rewrite Z.mod_1_r. reflexivity. }
  assert (Hmr0 : 0 <= mr) by lia.
  destruct (shr_located mr 1 _ e1 n2 ltac:(lia) Hmr0 Hr2) as [[Hm2 _] He2].
  destruct (shr (shr_record_of_loc mr loc_Exact) e1 n2) as [r2 e2].
  cbn [fst snd] in Hm2, He2. rewrite Z.mul_1_r in Hm2.
  cbv beta iota.
  assert (Hcases : (mr < 2 ^ 53 /\ n2 <= 0) \/ (mr = 2 ^ 53 /\ n2 = 1)).
  { destruct (Z_lt_le_dec mr (2 ^ 53)) as [Hlt|Hge].
    - left. split; [exact Hlt|].
      pose proof (Zdigits2_le mr 53 Hmr0 ltac:(lia) Hlt). lia.
    - right. assert (mr = 2 ^ 53) as -> by lia. split; [reflexivity|].
      unfold n2. change (Zdigits2 (2 ^ 53)) with 54. lia. }
  destruct Hcases as [[Hlt Hn2]|[Hcarry Hn2]].
  - (* no second shift *)
    rewrite Z.max_l in Hm2, He2 by lia.
    rewrite Z.pow_0_r, Z.div_1_r in Hm2. rewrite Z.add_0_r in He2.
    exists mr, e1. rewrite Hm2, He2.
    split; [lia|]. split; [lia|]. split; [lia|].
    split.
    { replace (e1 - ex) with k1 by lia.
      replace (mr * 2 ^ k1 * D) with (mr * (2 ^ k1 * D)) by ring. exact Hnear. }
    split; [|reflexivity].
    destruct Hcanon as [Hbits|Hleast]; [left; lia | right; exact Hleast].
  - (* rounding carried: one more place, exactly *)
    rewrite Hn2 in Hm2, He2. rewrite Z.max_r in Hm2, He2 by lia.
    rewrite Hcarry in Hm2. change (2 ^ 53 / 2 ^ 1) with (2 ^ 52) in Hm2.
    exists (2 ^ 52), (e1 + 1). rewrite Hm2, He2.
    split; [split; [lia | reflexivity]|]. split; [lia|]. split; [lia|].
    split.
    { replace (e1 + 1 - ex) with (Z.succ k1) by lia.
      rewrite Z.pow_succ_r by lia.
      replace (2 ^ 52 * (2 * 2 ^ k1) * D) with (2 ^ 53 * (2 ^ k1 * D))
        by (change (2 ^ 53) with (2 * 2 ^ 52); ring).
      rewrite <- Hcarry. lia. }
    split; [|reflexivity].
    left. reflexivity.
Qed.

Lemma new_location_loc_of D N :
  0 < D -> new_location D (N mod D) = loc_of N D.
Proof.
  intros HD. unfold new_location, new_location_even, new_location_odd, loc_of.
  pose proof (Z.mod_pos_bound N D HD) as Hr.
  destruct (Z.even D) eqn:Hev; [reflexivity|].
  destruct (N mod D =? 0)%Z; [reflexivity|]. f_equal.
  assert (Hodd : Z.odd D = true) by (rewrite <- Z.negb_even, Hev; reflexivity).
  apply Z.odd_spec in Hodd. destruct Hodd as [k Hk].
  destruct (Z.compare_spec (2 * (N mod D) + 1) D);
    destruct (Z.compare_spec (2 * (N mod D)) D); try reflexivity; lia.
Qed.

Lemma SFdiv_rounded (a b : positive) :
  rounded (Z.pos a) (Z.pos b) 0
          (SFdiv 53 1024 (S754_finite false a 0) (S754_finite false b 0)).
Proof.
  cbn [SFdiv xorb]. unfold SFdiv_core_binary.
  rewrite !Z.add_0_r, Z.sub_0_r, fexp_64.
  set (d1 := Zdigits2 (Z.pos a)). set (d2 := Zdigits2 (Z.pos b)).
  set (e' := Z.min (Z.max (d1 - d2 - 53) (-1074)) 0).
  set (s := - e').
  assert (Hs : 0 <= s) by (unfold s, e'; lia).
  assert (Hm' : match 0 - e' with
                | 0 => Z.pos a
                | Z.pos _ => Z.shiftl (Z.pos a) (0 - e')
                | Z.neg _ => 0
                end = Z.pos a * 2 ^ s).
  { replace (0 - e') with s by (unfold s; lia).
    destruct s as [|p|p] eqn:Es; [rewrite Z.pow_0_r; lia| |lia].
    apply Z.shiftl_mul_pow2. lia. }
  rewrite Hm'. clear Hm'.
  set (N := Z.pos a * 2 ^ s).
  assert (Hp : 0 < 2 ^ s) by (apply Z.pow_pos_nonneg; lia).
  assert (HN : 0 <= N) by (unfold N; lia).
  assert (Hdiv : Z.div_eucl N (Z.pos b) = (N / Z.pos b, N mod Z.pos b)).
  { unfold Z.div, Z.modulo. destruct (Z.div_eucl N (Z.pos b)); reflexivity. }
  rewrite Hdiv. rewrite new_location_loc_of by lia.
  (* the quotient has enough digits for the exponent [e'] *)
  assert (Hfine : e' <= Z.max (Zdigits2 (N / Z.pos b) + e' - 53) (-1074)).
  { destruct (Zdigits2_bounds (Z.pos a) ltac:(lia)) as [Hd1 [Hlo1 _]].
    destruct (Zdigits2_bounds (Z.pos b) ltac:(lia)) as [Hd2 [_ Hhi2]].
    fold d1 in Hd1, Hlo1. fold d2 in Hd2, Hhi2.
    assert (Hq0 : 0 <= N / Z.pos b) by (apply Z.div_pos; lia).
    assert (Hdq : d1 - d2 + s <= Zdigits2 (N / Z.pos b)).
    { destruct (Z_lt_le_dec (d1 - 1 + s - d2) 0) as [Hneg|Hk].
      - assert (0 <= Zdigits2 (N / Z.pos b)); [|lia].
        destruct (N / Z.pos b) as [|q|q]; cbn; lia.
      - assert (2 ^ (d1 - 1 + s - d2) <= N / Z.pos b).
        { apply Z.div_le_lower_bound; [lia|].
          assert (Hpk : 0 < 2 ^ (d1 - 1 + s - d2)) by (apply Z.pow_pos_nonneg; lia).
          assert (Hsplit : 2 ^ (d1 - 1 + s - d2) * 2 ^ d2 = 2 ^ (d1 - 1) * 2 ^ s).
          { rewrite <- !Z.pow_add_r by lia. f_equal. lia. }
          unfold N. nia. }
        pose proof (Zdigits2_ge _ _ Hk H). lia. }
    unfold e', s in *. lia. }
  destruct (binary_round_aux_near false (N / Z.pos b) e' (loc_of N (Z.pos b))
              N (Z.pos b) ltac:(lia) HN eq_refl eq_refl Hfine)
    as (m & e & [Hm0 Hm53] & Hee & Hemin & Hnear & Hcanon & ->).
  assert (Hscale : e - e' = e - 0 + s) by (unfold s; lia).
  assert (Hnear' : near m e (Z.pos a) (Z.pos b) 0).
  { exists s. split; [exact Hs|]. split; [lia|].
    rewrite <- Hscale. exact Hnear. }
  destruct m as [|p|p]; [| |lia].
  - cbn [rounded]. destruct Hcanon as [Hbits| ->]; [|exact Hnear'].
    exfalso. assert (0 < 2 ^ 52) by reflexivity. lia.
  - destruct (e <=? 971)%Z eqn:Hle.
    + apply Z.leb_le in Hle. cbn [rounded]. repeat split; try lia. exact Hnear'.
    + apply Z.leb_gt in Hle. cbn [rounded]. exists (Z.pos p), e.
      repeat split; try lia. exact Hnear'.
Qed.

Lemma SFmul_100_rounded (mq : positive) (eq : Z) :
  rounded (100 * Z.pos mq) 1 eq
          (SFmul 53 1024 (S754_finite false mq eq)
                 (binary_normalize 53 1024 100 0 false)).
Proof.
  change (binary_normalize 53 1024 100 0 false)
    with (S754_finite false 7036874417766400 (-46)).
  cbn [SFmul xorb].
  set (N := Z.pos (mq * 7036874417766400)).
  assert (HN : N = 100 * Z.pos mq * 2 ^ 46).
  { unfold N. rewrite Pos2Z.inj_mul.
    change (Z.pos 7036874417766400) with (100 * 2 ^ 46). ring. }
  assert (Hfine : eq + -46 <= Z.max (Zdigits2 N + (eq + -46) - 53) (-1074)).
  { assert (Hbig : 2 ^ 52 <= N).
    { rewrite HN. change (2 ^ 52) with (64 * 2 ^ 46).
      assert (0 < 2 ^ 46) by reflexivity. nia. }
    pose proof (Zdigits2_ge N 52 ltac:(lia) Hbig). lia. }
  destruct (binary_round_aux_near false N (eq + -46) loc_Exact N 1
              ltac:(lia) ltac:(unfold N; lia)
              ltac:(rewrite Z.div_1_r; reflexivity)
              ltac:(unfold loc_of; rewrite Z.mod_1_r; reflexivity) Hfine)
    as (m & e & [Hm0 Hm53] & Hee & Hemin & Hnear & Hcanon & ->).
  assert (Hnear' : near m e (100 * Z.pos mq) 1 eq).
  { exists 46. split; [lia|]. split; [lia|].
    replace (e - eq + 46) with (e - (eq + -46)) by lia.
    rewrite <- HN. exact Hnear. }
  destruct m as [|p|p]; [| |lia].
  - cbn [rounded]. destruct Hcanon as [Hbits| ->]; [|exact Hnear'].
    exfalso. assert (0 < 2 ^ 52) by reflexivity. lia.
  - destruct (e <=? 971)%Z eqn:Hle.
    + apply Z.leb_le in Hle. cbn [rounded]. repeat split; try lia. exact Hnear'.
    + apply Z.leb_gt in Hle. cbn [rounded]. exists (Z.pos p), e.
      repeat split; try lia. exact Hnear'.
Qed.

(** [a / b] on two positive integers is a rounding of the quotient, and
    raises [OverflowError] only when the rounding is beyond the floats. *)
Lemma int_truediv_rounded (a b : Z) :
  0 < a -> 0 < b ->
  match int_truediv a b with
  | Return f => rounded a b 0 f /\ (forall s, f <> S754_infinity s)
  | Raise e =>
      e = PyError "OverflowError" "integer division result too large for a float"
      /\ rounded a b 0 (S754_infinity false)
  end.
Proof.
  intros Ha Hb. unfold int_truediv.
  destruct a as [|pa|pa]; try lia. destruct b as [|pb|pb]; try lia.
  cbn [Z.eqb Z.ltb Z.compare Z.abs Z.to_pos].
  pose proof (SFdiv_rounded pa pb) as Hround.
  change (SFdiv prec emax) with (SFdiv 53 1024).
  destruct (SFdiv 53 1024 (S754_finite false pa 0) (S754_finite false pb 0))
    as [s|s| |s m e].
  - split; [exact Hround | discriminate].
  - destruct s; [destruct Hround|]. split; [reflexivity | exact Hround].
  - destruct Hround.
  - split; [exact Hround | discriminate].
Qed.

(** [x * 100] on a positive float is a rounding of the product. *)
Lemma float_mul_int_100_rounded (m : positive) (e : Z) :
  rounded (100 * Z.pos m) 1 e (float_mul_int (S754_finite false m e) 100).
Proof. exact (SFmul_100_rounded m e). Qed.

(** ** Running the monad *)

Section Runs.

Context {World : Type}.
Implicit Types (h : Web3 World) (w : World) (log : list event).

Lemma rpc_run {A} (c : rpc_call) (op : World -> outcome A * World) w w' log r :
  op w = (r, w') ->
  rpc c op (w, log) = (r, (w', (log ++ [Called c (raised_by r)])%list)).
Proof. intros Hop. unfold rpc. cbn [fst snd]. rewrite Hop. reflexivity. Qed.

Lemma probe_run h w w' log b :
  is_connected h w = (Answer b, w') ->
  probe h (w, log) = (Return b, (w', (log ++ [Called IsConnected None])%list)).
Proof. intros Hup. unfold probe. apply rpc_run. rewrite Hup. reflexivity. Qed.

Lemma probe_fault_run h w w' log cls msg :
  is_connected h w = (Fault cls msg, w') ->
  probe h (w, log)
  = (Raise (PyError cls msg),
     (w', (log ++ [Called IsConnected (Some (PyError cls msg))])%list)).
Proof.
  intros Hup. unfold probe.
  rewrite (rpc_run _ _ _ w' _ (Raise (PyError cls msg))); [reflexivity|].
  rewrite Hup. reflexivity.
Qed.

Lemma when_connected_up {A} h (rest : Web3 World -> M A) w w' log :
  is_connected h w = (Answer true, w') ->
  when_connected (Some h) rest (w, log)
  = rest h (w', (log ++ [Called IsConnected None])%list).
Proof.
  intros Hup. unfold when_connected, bind.
  rewrite (probe_run _ _ _ _ _ Hup). reflexivity.
Qed.

Lemma when_connected_down {A} (w3 : option (Web3 World)) (rest : Web3 World -> M A) s s' :
  connected w3 s = (Return false, s') ->
  when_connected w3 rest s = (Raise not_connected, s').
Proof.
  intros Hdown. unfold when_connected. destruct w3 as [h|].
  - cbn [connected] in Hdown. unfold bind. rewrite Hdown. reflexivity.
  - cbn in Hdown. injection Hdown as <-. reflexivity.
Qed.

Lemma health_check_run_some h w w' log b :
  is_connected h w = (Answer b, w') ->
  health_check (Some h) (w, log)
  = (Return (Health.mk "healthy" b CHAIN_ID),
     (w', (log ++ [Called IsConnected None])%list)).
Proof.
  intros Hup. unfold health_check, bind. cbn [connected].
  rewrite (probe_run _ _ _ _ _ Hup). reflexivity.
Qed.

Lemma connected_log (w3 : option (Web3 World)) w b s' :
  connected w3 (w, []) = (Return b, s') ->
  queries (snd s') = [].
Proof.
  destruct w3 as [h|]; cbn [connected].
  - unfold probe, rpc. cbn [fst snd].
    destruct (is_connected h w) as [[up|cls msg] w']; cbn [probe_outcome];
      intros Hrun; [|discriminate].
    injection Hrun as _ <-. reflexivity.
  - intros Hrun. injection Hrun as _ <-. reflexivity.
Qed.

(** *** Exceptions of remote calls, combinator by combinator *)

Lemma clean_nil : clean [].
Proof. intros c e []. Qed.

Lemma clean_snoc log c : clean log -> clean (log ++ [Called c None]).
Proof.
  intros Hclean c' e Hin. apply in_app_or in Hin as [Hin|[Hin|[]]].
  - exact (Hclean _ _ Hin).
  - discriminate Hin.
Qed.

Lemma aborts_ret {A} (a : A) : aborts_on_raise (ret (World := World) a).
Proof. intros s r s' Hclean Hrun. injection Hrun as <- <-. exact Hclean. Qed.

Lemma aborts_raise {A} (e : exn) : aborts_on_raise (raise (World := World) (A := A) e).
Proof.
  intros s r s' Hclean Hrun. injection Hrun as <- <-.
  intros c e' Hin. destruct (Hclean _ _ Hin).
Qed.

Lemma aborts_lift {A} (x : outcome A) : aborts_on_raise (lift (World := World) x).
Proof.
  intros s r s' Hclean Hrun. injection Hrun as <- <-.
  destruct x; [exact Hclean|].
  intros c e' Hin. destruct (Hclean _ _ Hin).
Qed.

Lemma aborts_rpc {A} (c : rpc_call) (op : World -> outcome A * World) :
  c <> IsConnected -> aborts_on_raise (rpc c op).
Proof.
  intros Hquery [w log] r s' Hclean Hrun. unfold rpc in Hrun. cbn [fst snd] in *.
  destruct (op w) as [x w']. injection Hrun as <- <-. cbn [snd].
  destruct x as [a|e0]; cbn [raised_by].
  - apply clean_snoc, Hclean.
  - intros c' e Hin. apply in_app_or in Hin as [Hin|[Hin|[]]].
    + destruct (Hclean _ _ Hin).
    + injection Hin as <- <-. split; [reflexivity | exact Hquery].
Qed.

Lemma aborts_bind {A B} (m : M (World := World) A) (k : A -> M (World := World) B) :
  aborts_on_raise m -> (forall a, aborts_on_raise (k a)) ->
  aborts_on_raise (bind m k).
Proof.
  intros Hm Hk s r s' Hclean Hrun. unfold bind in Hrun.
  destruct (m s) as [[a|e0] s1] eqn:Hfirst.
  - exact (Hk a s1 r s' (Hm _ _ _ Hclean Hfirst) Hrun).
  - injection Hrun as <- <-. exact (Hm _ _ _ Hclean Hfirst).
Qed.

Lemma aborts_if {A} (b : bool) (m1 m2 : M (World := World) A) :
  aborts_on_raise m1 -> aborts_on_raise m2 ->
  aborts_on_raise (if b then m1 else m2).
Proof. destruct b; auto. Qed.

Lemma try_except_reports_500 {A} (body : M (World := World) A) :
  aborts_on_raise body -> reports_500 (try_except body internal_error).
Proof.
  intros Hbody s r s' Hclean Hrun c e Hin. unfold try_except in Hrun.
  destruct (body s) as [[a|e0] s1] eqn:Hfirst.
  - injection Hrun as <- <-.
    destruct (Hbody _ _ _ Hclean Hfirst _ _ Hin).
  - injection Hrun as <- <-.
    destruct (Hbody _ _ _ Hclean Hfirst _ _ Hin) as [-> Hquery].
    split; [reflexivity | intros Hprobe; destruct (Hquery Hprobe)].
Qed.

Lemma when_connected_reports_500 {A} (w3 : option (Web3 World))
    (rest : Web3 World -> M A) :
  (forall h, reports_500 (rest h)) -> reports_500 (when_connected w3 rest).
Proof.
  intros Hrest [w log] r s' Hclean Hrun c e Hin.
  unfold when_connected in Hrun. destruct w3 as [h|].
  - unfold bind in Hrun.
    destruct (is_connected h w) as [[up|cls msg] w'] eqn:Hup.
    + rewrite (probe_run _ _ _ _ _ Hup) in Hrun.
      destruct up; cbn [negb] in Hrun.
      * refine (Hrest h _ _ _ _ Hrun _ _ Hin). apply clean_snoc, Hclean.
      * injection Hrun as <- <-. destruct (clean_snoc _ _ Hclean _ _ Hin).
    + rewrite (probe_fault_run _ _ _ _ _ _ Hup) in Hrun.
      injection Hrun as <- <-. cbn [snd] in Hin.
      apply in_app_or in Hin as [Hin|[Hin|[]]].
      * destruct (Hclean _ _ Hin).
      * injection Hin as <- <-.
        split; [intros Hquery; destruct Hquery; reflexivity | reflexivity].
  - injection Hrun as <- <-. destruct (Hclean _ _ Hin).
Qed.

End Runs.

Create HintDb aborts.
#[local] Hint Resolve aborts_ret aborts_raise aborts_lift aborts_if : aborts.
#[local] Hint Extern 1 (aborts_on_raise (rpc _ _)) =>
  apply aborts_rpc; discriminate : aborts.

(** The body of a [try] block is a chain of binds over the primitives. *)
Ltac aborts :=
  repeat (apply aborts_bind; [|intros ?]); cbn zeta; auto with aborts.

(** ** The handlers *)

Section HandlerFacts.

Context {World : Type}.
Implicit Types (h : Web3 World) (w : World) (log : list event).

(** C6, amended.  The health check reports status ["healthy"] and chain
    id 54176 whenever the probe, if there is one, answers: with
    [over_protocol_connected] [False] for an absent handle, and the answer
    of the probe otherwise ([False] for an unreachable node, [True] for a
    connected one).  When [is_connected] itself raises, nothing catches
    the exception and it leaves the handler. *)
Theorem health_check_outcome (w3 : option (Web3 World)) w log :
  health_check w3 (w, log)
  = match w3 with
    | None => (Return (Health.mk "healthy" false 54176), (w, log))
    | Some h =>
        match is_connected h w with
        | (Answer b, w') =>
            (Return (Health.mk "healthy" b 54176),
             (w', (log ++ [Called IsConnected None])%list))
        | (Fault cls msg, w') =>
            (Raise (PyError cls msg),
             (w', (log ++ [Called IsConnected (Some (PyError cls msg))])%list))
        end
    end.
Proof.
  unfold health_check, bind. destruct w3 as [h|]; cbn [connected].
  - destruct (is_connected h w) as [[up|cls msg] w'] eqn:Hup.
    + rewrite (probe_run _ _ _ _ _ Hup). reflexivity.
    + rewrite (probe_fault_run _ _ _ _ _ _ Hup). reflexivity.
  - reflexivity.
Qed.

(** C4.  When the handle is absent or its probe answers [False], the four
    handlers other than the health check raise [HTTPException] 503, and
    the call log holds no query: the state is the one the connectivity
    check left. *)
Theorem disconnected_gives_503 (w3 : option (Web3 World)) w s'
    (balance_request : BalanceRequest.t)
    (transaction_request : TransactionRequest.t) :
  connected w3 (w, []) = (Return false, s') ->
  get_network_info w3 (w, [])
    = (Raise (HTTPException 503 "Not connected to Over Protocol"), s')
  /\ check_balance w3 balance_request (w, [])
    = (Raise (HTTPException 503 "Not connected to Over Protocol"), s')
  /\ estimate_gas w3 transaction_request (w, [])
    = (Raise (HTTPException 503 "Not connected to Over Protocol"), s')
  /\ get_network_analytics w3 (w, [])
    = (Raise (HTTPException 503 "Not connected to Over Protocol"), s')
  /\ queries (snd s') = [].
Proof.
  intros Hdown.
  unfold get_network_info, check_balance, estimate_gas, get_network_analytics.
  rewrite !(when_connected_down _ _ _ _ Hdown).
  repeat split. exact (connected_log _ _ _ _ Hdown).
Qed.

(** C1, as the code behaves.  With a connected handle, an address that
    [is_address] rejects makes [check_balance] raise the 400 exception
    inside the [try] block, where [except Exception] catches it: the
    handler raises [HTTPException] 500 whose detail is the [str] of the
    400 exception.  The same holds for [estimate_gas] when either address
    is rejected.  No query is issued. *)
Theorem malformed_address_gives_500 h w w'
    (balance_request : BalanceRequest.t)
    (transaction_request : TransactionRequest.t) :
  is_connected h w = (Answer true, w') ->
  (is_address h (BalanceRequest.address balance_request) = false ->
   check_balance (Some h) balance_request (w, [])
   = (Raise (HTTPException 500 "400: Invalid address format"),
      (w', [Called IsConnected None])))
  /\ (is_address h (TransactionRequest.from_address transaction_request)
      && is_address h (TransactionRequest.to_address transaction_request) = false ->
      estimate_gas (Some h) transaction_request (w, [])
      = (Raise (HTTPException 500 "400: Invalid address format"),
         (w', [Called IsConnected None]))).
Proof.
  intros Hup.
  unfold check_balance, estimate_gas.
  rewrite !(when_connected_up _ _ _ _ _ Hup).
  unfold try_except, bind. split; intros Hbad.
  - rewrite Hbad. reflexivity.
  - rewrite <- negb_andb, Hbad. reflexivity.
Qed.

(** ** Successful runs of the try blocks *)

Lemma check_balance_run h w0 w1 w2 w3 (request : BalanceRequest.t) B blk :
  is_connected h w0 = (Answer true, w1) ->
  is_address h (BalanceRequest.address request) = true ->
  eth_get_balance h (BalanceRequest.address request) w1 = (Return B, w2) ->
  eth_get_block h latest w2 = (Return blk, w3) ->
  check_balance (Some h) request (w0, [])
  = match from_wei B ether with
    | Return v =>
        (Return (Balance.mk (BalanceRequest.address request)
                   (str_number v) (str_int B) (timestamp blk)),
         (w3, [Called IsConnected None;
               Called (GetBalance (BalanceRequest.address request)) None;
               Called (GetBlock latest) None]))
    | Raise e =>
        (Raise (HTTPException 500 (str_exn e)),
         (w2, [Called IsConnected None;
               Called (GetBalance (BalanceRequest.address request)) None]))
    end.
Proof.
  intros Hup Hok Hbal Hblk. unfold check_balance.
  rewrite (when_connected_up _ _ _ _ _ Hup).
  unfold try_except, bind. rewrite Hok. cbn [negb ret].
  rewrite (rpc_run _ _ _ _ _ _ Hbal). unfold lift.
  destruct (from_wei B ether) as [v|e]; [|reflexivity].
  rewrite (rpc_run _ _ _ _ _ _ Hblk). reflexivity.
Qed.

Lemma estimate_gas_run h w0 w1 w2 w3 (request : TransactionRequest.t) a g p :
  is_connected h w0 = (Answer true, w1) ->
  is_address h (TransactionRequest.from_address request) = true ->
  is_address h (TransactionRequest.to_address request) = true ->
  to_wei h (TransactionRequest.amount request) ether = Return a ->
  eth_estimate_gas h
    (mkTx (TransactionRequest.from_address request)
          (TransactionRequest.to_address request) a) w1 = (Return g, w2) ->
  eth_gas_price h w2 = (Return p, w3) ->
  estimate_gas (Some h) request (w0, [])
  = (match from_wei p gwei, from_wei (g * p + a) ether, from_wei (g * p) ether with
     | Return gas_price_gwei, Return total_cost_over, Return transaction_cost_over =>
         Return (GasEstimate.mk g gas_price_gwei total_cost_over transaction_cost_over)
     | Raise e, _, _ => Raise (HTTPException 500 (str_exn e))
     | Return _, Raise e, _ => Raise (HTTPException 500 (str_exn e))
     | Return _, Return _, Raise e => Raise (HTTPException 500 (str_exn e))
     end,
     (w3, [Called IsConnected None;
           Called (EstimateGas
                     (mkTx (TransactionRequest.from_address request)
                           (TransactionRequest.to_address request) a)) None;
           Called GasPrice None])).
Proof.
  intros Hup Hfrom Hto Hamount Hgas Hprice. unfold estimate_gas.
  rewrite (when_connected_up _ _ _ _ _ Hup).
  unfold try_except, bind. rewrite Hfrom, Hto. cbn [negb orb ret].
  unfold lift. rewrite Hamount. cbn zeta.
  rewrite (rpc_run _ _ _ _ _ _ Hgas).
  rewrite (rpc_run _ _ _ _ _ _ Hprice).
  destruct (from_wei p gwei); [|reflexivity].
  destruct (from_wei (g * p + a) ether); [|reflexivity].
  destruct (from_wei (g * p) ether); reflexivity.
Qed.

Lemma get_network_analytics_run h w0 w1 w2 s3 blk bt :
  is_connected h w0 = (Answer true, w1) ->
  eth_get_block h latest w1 = (Return blk, w2) ->
  block_time_of h blk
    (w2, [Called IsConnected None; Called (GetBlock latest) None])
    = (Return bt, s3) ->
  get_network_analytics (Some h) (w0, [])
  = (match int_truediv (gasUsed blk) (gasLimit blk) with
     | Return ratio =>
         Return (Analytics.mk (number blk) (timestamp blk)
                   (Z.of_nat (List.length (transactions blk))) bt
                   (gasLimit blk) (gasUsed blk) (float_mul_int ratio 100))
     | Raise e => Raise (HTTPException 500 (str_exn e))
     end, s3).
Proof.
  intros Hup Hblk Htime. unfold get_network_analytics.
  rewrite (when_connected_up _ _ _ _ _ Hup).
  unfold try_except, bind.
  rewrite (rpc_run _ _ _ _ _ _ Hblk). cbn [raised_by app].
  rewrite Htime. unfold lift.
  destruct (int_truediv (gasUsed blk) (gasLimit blk)); reflexivity.
Qed.

(** C2, amended.  With the amount parsed to [a] wei, the node's estimate
    [g] and gas price [p], all non-negative and with [p] and [g * p + a]
    at most [2**256 - 1], [estimate_gas] returns [g] and the three
    converted values: the total cost is [from_wei (g * p + a)] and the
    transaction cost [from_wei (g * p)], each exactly the wei amount
    divided by [10**18]. *)
Theorem estimate_gas_costs h w0 w1 w2 w3 (request : TransactionRequest.t) a g p :
  is_connected h w0 = (Answer true, w1) ->
  is_address h (TransactionRequest.from_address request) = true ->
  is_address h (TransactionRequest.to_address request) = true ->
  to_wei h (TransactionRequest.amount request) ether = Return a ->
  eth_estimate_gas h
    (mkTx (TransactionRequest.from_address request)
          (TransactionRequest.to_address request) a) w1 = (Return g, w2) ->
  eth_gas_price h w2 = (Return p, w3) ->
  0 <= g -> 0 <= p -> 0 <= a ->
  p <= MAX_WEI -> g * p + a <= MAX_WEI ->
  exists r s,
    estimate_gas (Some h) request (w0, []) = (Return r, s)
    /\ GasEstimate.gas_estimate r = g
    /\ from_wei (g * p + a) ether = Return (GasEstimate.total_cost_over r)
    /\ in_wei (GasEstimate.total_cost_over r) ether = g * p + a
    /\ from_wei (g * p) ether = Return (GasEstimate.transaction_cost_over r)
    /\ in_wei (GasEstimate.transaction_cost_over r) ether = g * p
    /\ in_wei (GasEstimate.gas_price_gwei r) gwei = p.
Proof.
  intros Hup Hfrom Hto Hamount Hgas Hprice Hg Hp Ha Hpmax Hmax.
  rewrite (estimate_gas_run _ _ _ _ _ _ _ _ _ Hup Hfrom Hto Hamount Hgas Hprice).
  destruct (from_wei_exact p gwei) as (vp & -> & Hvp); [lia|].
  destruct (from_wei_exact (g * p + a) ether) as (vt & -> & Hvt); [nia|].
  destruct (from_wei_exact (g * p) ether) as (vc & -> & Hvc); [nia|].
  eexists _, _. split; [reflexivity|]. cbn. repeat split; assumption.
Qed.

(** C5, amended.  With a connected handle and two accepted addresses, an
    amount on which [to_wei] raises [e] makes [estimate_gas] raise
    [HTTPException] 500 with [str(e)] as detail, before any query. *)
Theorem unparseable_amount_gives_500 h w0 w1 (request : TransactionRequest.t) e :
  is_connected h w0 = (Answer true, w1) ->
  is_address h (TransactionRequest.from_address request) = true ->
  is_address h (TransactionRequest.to_address request) = true ->
  to_wei h (TransactionRequest.amount request) ether = Raise e ->
  estimate_gas (Some h) request (w0, [])
  = (Raise (HTTPException 500 (str_exn e)), (w1, [Called IsConnected None])).
Proof.
  intros Hup Hfrom Hto Hamount. unfold estimate_gas.
  rewrite (when_connected_up _ _ _ _ _ Hup).
  unfold try_except, bind. rewrite Hfrom, Hto. cbn [negb orb ret].
  unfold lift. rewrite Hamount. reflexivity.
Qed.

(** C8, amended.  For an accepted address whose balance is [B] wei, with
    [B] in the range of a balance, [check_balance] returns [str(B)] as
    [balance_wei] and, as [balance_over], the [str] of [from_wei(B)],
    which is exactly [B] divided by [10**18]; for [B = 10**18] the two
    strings are ["1000000000000000000"] and ["1"]. *)
Theorem check_balance_strings h w0 w1 w2 w3 (request : BalanceRequest.t) B blk :
  is_connected h w0 = (Answer true, w1) ->
  is_address h (BalanceRequest.address request) = true ->
  eth_get_balance h (BalanceRequest.address request) w1 = (Return B, w2) ->
  eth_get_block h latest w2 = (Return blk, w3) ->
  0 <= B <= MAX_WEI ->
  exists v,
    from_wei B ether = Return v
    /\ in_wei v ether = B
    /\ check_balance (Some h) request (w0, [])
       = (Return (Balance.mk (BalanceRequest.address request)
                    (str_number v) (str_int B) (timestamp blk)),
          (w3, [Called IsConnected None;
                Called (GetBalance (BalanceRequest.address request)) None;
                Called (GetBlock latest) None]))
    /\ (B = 1000000000000000000 ->
        str_number v = "1" /\ str_int B = "1000000000000000000").
Proof.
  intros Hup Hok Hbal Hblk Hrange.
  rewrite (check_balance_run _ _ _ _ _ _ _ _ Hup Hok Hbal Hblk).
  destruct (from_wei_exact B ether Hrange) as (v & Hv & Hval).
  exists v. rewrite Hv.
  split; [reflexivity|]. split; [exact Hval|]. split; [reflexivity|].
  intros HB. rewrite HB in Hv |- *.
  vm_compute in Hv. injection Hv as <-. split; reflexivity.
Qed.

(** C3.  With the latest block fetched and the block time computed,
    [get_network_analytics] divides [gasUsed] by [gasLimit] as Python
    does and multiplies by 100.  For a [gasLimit] of 0 nothing guards the
    division: [ZeroDivisionError] reaches the [except] clause and the
    handler raises [HTTPException] 500 with its message.  For positive
    [gasUsed] and [gasLimit] the ratio is the binary64 rounding of the
    quotient [gasUsed / gasLimit], within half a unit in the last place,
    and [gas_utilization_percent] is the binary64 rounding of 100 times
    that ratio; only a quotient beyond the floats raises
    ([OverflowError], again a 500).  For [gasUsed] 0 the percentage is
    [0.0]. *)
Theorem gas_utilization_percent_is_ratio_times_100 h w0 w1 w2 s3 blk bt :
  is_connected h w0 = (Answer true, w1) ->
  eth_get_block h latest w1 = (Return blk, w2) ->
  block_time_of h blk
    (w2, [Called IsConnected None; Called (GetBlock latest) None])
    = (Return bt, s3) ->
  let response percent :=
    Analytics.mk (number blk) (timestamp blk)
      (Z.of_nat (List.length (transactions blk))) bt
      (gasLimit blk) (gasUsed blk) percent in
  get_network_analytics (Some h) (w0, [])
  = (match int_truediv (gasUsed blk) (gasLimit blk) with
     | Return ratio => Return (response (float_mul_int ratio 100))
     | Raise e => Raise (HTTPException 500 (str_exn e))
     end, s3)
  /\ (gasLimit blk = 0 ->
      get_network_analytics (Some h) (w0, [])
      = (Raise (HTTPException 500 "division by zero"), s3))
  /\ (0 < gasUsed blk -> 0 < gasLimit blk ->
      (exists ratio percent,
          int_truediv (gasUsed blk) (gasLimit blk) = Return ratio
          /\ float_mul_int ratio 100 = percent
          /\ rounded (gasUsed blk) (gasLimit blk) 0 ratio
          /\ match ratio with
             | S754_finite _ m e => rounded (100 * Z.pos m) 1 e percent
             | _ => percent = ratio
             end
          /\ get_network_analytics (Some h) (w0, [])
             = (Return (response percent), s3))
      \/ (rounded (gasUsed blk) (gasLimit blk) 0 (S754_infinity false)
          /\ get_network_analytics (Some h) (w0, [])
             = (Raise (HTTPException 500
                         "integer division result too large for a float"), s3)))
  /\ (gasUsed blk = 0 -> 0 < gasLimit blk ->
      get_network_analytics (Some h) (w0, [])
      = (Return (response (S754_zero false)), s3)).
Proof.
  intros Hup Hblk Htime. cbv zeta.
  rewrite (get_network_analytics_run _ _ _ _ _ _ _ Hup Hblk Htime).
  split; [reflexivity|]. split; [|split].
  - intros ->. rewrite int_truediv_by_zero. reflexivity.
  - intros Hused Hlimit.
    pose proof (int_truediv_rounded _ _ Hused Hlimit) as Hdiv.
    destruct (int_truediv (gasUsed blk) (gasLimit blk)) as [ratio|e].
    + left. destruct Hdiv as [Hround _].
      exists ratio, (float_mul_int ratio 100).
      split; [reflexivity|]. split; [reflexivity|].
      split; [exact Hround|]. split; [|reflexivity].
      destruct ratio as [[|]|[|]| |[|] m e]; cbn [rounded] in Hround;
        try contradiction; try reflexivity.
      apply float_mul_int_100_rounded.
    + right. destruct Hdiv as [-> Hround]. split; [exact Hround | reflexivity].
  - intros Hused Hlimit. rewrite Hused. unfold int_truediv.
    replace (gasLimit blk =? 0)%Z with false by (symmetry; apply Z.eqb_neq; lia).
    replace (gasLimit blk <? 0)%Z with false by (symmetry; apply Z.ltb_ge; lia).
    reflexivity.
Qed.

(** C7.  When the latest block has a positive number, the block before it
    is fetched and [average_block_time_seconds] is the timestamp of the
    latest block minus the timestamp of that block. *)
Theorem average_block_time_is_timestamp_delta h w0 w1 w2 w3 blk prev ratio :
  is_connected h w0 = (Answer true, w1) ->
  eth_get_block h latest w1 = (Return blk, w2) ->
  0 < number blk ->
  eth_get_block h (block_no (number blk - 1)) w2 = (Return prev, w3) ->
  int_truediv (gasUsed blk) (gasLimit blk) = Return ratio ->
  exists r,
    get_network_analytics (Some h) (w0, [])
    = (Return r,
       (w3, [Called IsConnected None; Called (GetBlock latest) None;
             Called (GetBlock (block_no (number blk - 1))) None]))
    /\ Analytics.average_block_time_seconds r = timestamp blk - timestamp prev.
Proof.
  intros Hup Hblk Hpos Hprev Hratio.
  eexists. split.
  - erewrite get_network_analytics_run; [rewrite Hratio; reflexivity|eassumption..|].
    unfold block_time_of.
    replace (number blk >? 0)%Z with true by (symmetry; apply Z.gtb_lt; lia).
    unfold bind. cbn zeta. rewrite (rpc_run _ _ _ _ _ _ Hprev). reflexivity.
  - reflexivity.
Qed.

(** C10.  When the number of the latest block is 0, no other block is
    fetched: the log holds the probe and the one [get_block('latest')],
    [average_block_time_seconds] is 0 and the other fields are those of
    the latest block. *)
Theorem genesis_block_time_is_zero h w0 w1 w2 blk ratio :
  is_connected h w0 = (Answer true, w1) ->
  eth_get_block h latest w1 = (Return blk, w2) ->
  number blk = 0 ->
  int_truediv (gasUsed blk) (gasLimit blk) = Return ratio ->
  get_network_analytics (Some h) (w0, [])
  = (Return (Analytics.mk 0 (timestamp blk)
               (Z.of_nat (List.length (transactions blk))) 0
               (gasLimit blk) (gasUsed blk) (float_mul_int ratio 100)),
     (w2, [Called IsConnected None; Called (GetBlock latest) None])).
Proof.
  intros Hup Hblk Hzero Hratio.
  erewrite get_network_analytics_run; [|eassumption..|].
  - rewrite Hratio, Hzero. reflexivity.
  - unfold block_time_of. rewrite Hzero. reflexivity.
Qed.

(** C9, amended.  In each of the four handlers, when a query made inside
    the [try] block raises an exception [e] (the log records the call
    with [e]), the handler raises [HTTPException] 500 whose detail is
    [str(e)], unchanged; when the connectivity probe, which is called
    before the [try], raises [e], the handler raises [e] itself. *)
Theorem upstream_exception_gives_500 (w3 : option (Web3 World)) w
    (balance_request : BalanceRequest.t)
    (transaction_request : TransactionRequest.t) c e :
  (forall r s',
      get_network_info w3 (w, []) = (r, s') ->
      In (Called c (Some e)) (snd s') ->
      (c <> IsConnected -> r = Raise (HTTPException 500 (str_exn e)))
      /\ (c = IsConnected -> r = Raise e))
  /\ (forall r s',
      check_balance w3 balance_request (w, []) = (r, s') ->
      In (Called c (Some e)) (snd s') ->
      (c <> IsConnected -> r = Raise (HTTPException 500 (str_exn e)))
      /\ (c = IsConnected -> r = Raise e))
  /\ (forall r s',
      estimate_gas w3 transaction_request (w, []) = (r, s') ->
      In (Called c (Some e)) (snd s') ->
      (c <> IsConnected -> r = Raise (HTTPException 500 (str_exn e)))
      /\ (c = IsConnected -> r = Raise e))
  /\ (forall r s',
      get_network_analytics w3 (w, []) = (r, s') ->
      In (Called c (Some e)) (snd s') ->
      (c <> IsConnected -> r = Raise (HTTPException 500 (str_exn e)))
      /\ (c = IsConnected -> r = Raise e)).
Proof.
  split; [|split; [|split]]; intros r s' Hrun Hin;
    refine (when_connected_reports_500 w3 _ _ (w, []) r s' clean_nil Hrun c e Hin);
    intros h; apply try_except_reports_500; unfold block_time_of; aborts.
  all: apply aborts_if; aborts.
Qed.

End HandlerFacts.


Lemma disconnected_gives_503_witness :
  connected (Some (Mock.handle Mock.node_down)) (0%nat, [])
    = (Return false, (1%nat, [Called IsConnected None]))
  /\ check_balance (Some (Mock.handle Mock.node_down))
       (BalanceRequest.mk Mock.alice) (0%nat, [])
    = (Raise (HTTPException 503 "Not connected to Over Protocol"),
       (1%nat, [Called IsConnected None])).
Proof.
  split; [reflexivity|].
  apply (disconnected_gives_503 (Some (Mock.handle Mock.node_down)) 0%nat
           (1%nat, [Called IsConnected None])
           (BalanceRequest.mk Mock.alice)
           (TransactionRequest.mk Mock.alice Mock.bob "1.5")).
  reflexivity.
Defined.

Lemma malformed_address_gives_500_witness :
  check_balance (Some (Mock.handle Mock.node))
    (BalanceRequest.mk "not-an-address") (0%nat, [])
  = (Raise (HTTPException 500 "400: Invalid address format"),
     (1%nat, [Called IsConnected None]))
  /\ estimate_gas (Some (Mock.handle Mock.node))
       (TransactionRequest.mk Mock.alice "bob" "1.5") (0%nat, [])
  = (Raise (HTTPException 500 "400: Invalid address format"),
     (1%nat, [Called IsConnected None])).
Proof.
  destruct (malformed_address_gives_500 (Mock.handle Mock.node) 0%nat 1%nat
              (BalanceRequest.mk "not-an-address")
              (TransactionRequest.mk Mock.alice "bob" "1.5")
              eq_refl) as [Hbalance Hgas].
  split; [apply Hbalance | apply Hgas]; reflexivity.
Defined.

Lemma estimate_gas_costs_witness :
  exists r s,
    estimate_gas (Some (Mock.handle Mock.node))
      (TransactionRequest.mk Mock.alice Mock.bob "1.5") (0%nat, []) = (Return r, s)
    /\ GasEstimate.gas_estimate r = 21000
    /\ in_wei (GasEstimate.total_cost_over r) ether = 1500021000000000000
    /\ in_wei (GasEstimate.transaction_cost_over r) ether = 21000000000000
    /\ str_number (GasEstimate.total_cost_over r) = "1.500021"
    /\ str_number (GasEstimate.transaction_cost_over r) = "0.000021".
Proof.
  destruct (estimate_gas_costs (Mock.handle Mock.node) 0%nat 1%nat 2%nat 3%nat
              (TransactionRequest.mk Mock.alice Mock.bob "1.5")
              1500000000000000000 21000 1000000000)
    as (r & s & Hrun & Hg & Htotal & Htotal_wei & Hcost & Hcost_wei & _);
    try reflexivity; try (vm_compute; discriminate).
  exists r, s. repeat split; try assumption.
  - change (Return (PyDec (mkDecimal false 1500021 (-6)))
            = Return (GasEstimate.total_cost_over r)) in Htotal.
    injection Htotal as <-. reflexivity.
  - change (Return (PyDec (mkDecimal false 21 (-6)))
            = Return (GasEstimate.transaction_cost_over r)) in Hcost.
    injection Hcost as <-. reflexivity.
Defined.

Lemma unparseable_amount_gives_500_witness :
  estimate_gas (Some (Mock.handle Mock.node))
    (TransactionRequest.mk Mock.alice Mock.bob "abc") (0%nat, [])
  = (Raise (HTTPException 500 "[<class 'decimal.ConversionSyntax'>]"),
     (1%nat, [Called IsConnected None])).
Proof.
  apply (unparseable_amount_gives_500 (Mock.handle Mock.node) 0%nat 1%nat
           (TransactionRequest.mk Mock.alice Mock.bob "abc") Mock.conversion_syntax);
    reflexivity.
Defined.

Lemma check_balance_strings_witness :
  exists v,
    from_wei 1000000000000000000 ether = Return v
    /\ check_balance (Some (Mock.handle Mock.node))
         (BalanceRequest.mk Mock.alice) (0%nat, [])
       = (Return (Balance.mk Mock.alice (str_number v) "1000000000000000000" 1000),
          (3%nat, [Called IsConnected None; Called (GetBalance Mock.alice) None;
                   Called (GetBlock latest) None]))
    /\ str_number v = "1".
Proof.
  destruct (check_balance_strings (Mock.handle Mock.node) 0%nat 1%nat 2%nat 3%nat
              (BalanceRequest.mk Mock.alice) 1000000000000000000 Mock.block_N)
    as (v & Hv & _ & Hrun & Hone);
    try reflexivity; [split; vm_compute; discriminate|].
  exists v. split; [exact Hv|]. split; [exact Hrun|].
  exact (proj1 (Hone eq_refl)).
Defined.

Lemma gas_utilization_percent_is_ratio_times_100_witness :
  rounded 15000000 30000000 0 (S754_finite false 4503599627370496 (-53))
  /\ get_network_analytics (Some (Mock.handle Mock.node)) (0%nat, [])
     = (Return (Analytics.mk 7 1000 2 12 30000000 15000000
                  (S754_finite false 7036874417766400 (-47))),
        (3%nat, [Called IsConnected None; Called (GetBlock latest) None;
                 Called (GetBlock (block_no 6)) None])).
Proof.
  destruct (gas_utilization_percent_is_ratio_times_100
              (Mock.handle Mock.node) 0%nat 1%nat 2%nat
              (3%nat, [Called IsConnected None; Called (GetBlock latest) None;
                       Called (GetBlock (block_no 6)) None])
              Mock.block_N 12 eq_refl eq_refl eq_refl)
    as (Hrun & _ & Hpositive & _).
  split; [|exact Hrun].
  destruct (Hpositive eq_refl eq_refl)
    as [(ratio & percent & Hdiv & _ & Hround & _)|[_ Hraise]].
  - change (int_truediv (gasUsed Mock.block_N) (gasLimit Mock.block_N))
      with (Return (S754_finite false 4503599627370496 (-53))) in Hdiv.
    injection Hdiv as <-. exact Hround.
  - rewrite Hrun in Hraise. discriminate Hraise.
Defined.

Lemma average_block_time_is_timestamp_delta_witness :
  exists r,
    get_network_analytics (Some (Mock.handle Mock.node)) (0%nat, [])
    = (Return r,
       (3%nat, [Called IsConnected None; Called (GetBlock latest) None;
                Called (GetBlock (block_no 6)) None]))
    /\ Analytics.average_block_time_seconds r = 1000 - 988.
Proof.
  apply (average_block_time_is_timestamp_delta (Mock.handle Mock.node)
           0%nat 1%nat 2%nat 3%nat Mock.block_N Mock.block_N_minus_1
           (S754_finite false 4503599627370496 (-53)));
    reflexivity.
Defined.

Lemma genesis_block_time_is_zero_witness :
  get_network_analytics (Some (Mock.handle Mock.node_genesis)) (0%nat, [])
  = (Return (Analytics.mk 0 1700000000 0 0 30000000 0 (S754_zero false)),
     (2%nat, [Called IsConnected None; Called (GetBlock latest) None])).
Proof.
  apply (genesis_block_time_is_zero (Mock.handle Mock.node_genesis)
           0%nat 1%nat 2%nat Mock.genesis (S754_zero false));
    reflexivity.
Defined.

Lemma upstream_exception_gives_500_witness :
  fst (get_network_info (Some (Mock.handle Mock.node_failing)) (0%nat, []))
  = Raise (HTTPException 500
      "HTTPSConnectionPool(host='rpc.overprotocol.com', port=443): Read timed out.")
  /\ fst (check_balance (Some (Mock.handle Mock.node_failing))
            (BalanceRequest.mk Mock.alice) (0%nat, []))
  = Raise (HTTPException 500
      "HTTPSConnectionPool(host='rpc.overprotocol.com', port=443): Read timed out.")
  /\ fst (get_network_analytics (Some Mock.garbled) (0%nat, []))
  = Raise (PyError "JSONDecodeError" "Expecting value: line 1 column 1 (char 0)").
Proof.
  destruct (upstream_exception_gives_500 (Some (Mock.handle Mock.node_failing)) 0%nat
              (BalanceRequest.mk Mock.alice)
              (TransactionRequest.mk Mock.alice Mock.bob "1.5")
              BlockNumber Mock.timeout) as (Hinfo & _).
  destruct (upstream_exception_gives_500 (Some (Mock.handle Mock.node_failing)) 0%nat
              (BalanceRequest.mk Mock.alice)
              (TransactionRequest.mk Mock.alice Mock.bob "1.5")
              (GetBalance Mock.alice) Mock.timeout) as (_ & Hbalance & _).
  destruct (upstream_exception_gives_500 (Some Mock.garbled) 0%nat
              (BalanceRequest.mk Mock.alice)
              (TransactionRequest.mk Mock.alice Mock.bob "1.5")
              IsConnected Mock.not_json) as (_ & _ & _ & Hprobe).
  split; [|split].
  - apply (Hinfo _ _ eq_refl); [right; left; reflexivity | discriminate].
  - apply (Hbalance _ _ eq_refl); [right; left; reflexivity | discriminate].
  - apply (Hprobe _ _ eq_refl); [left; reflexivity | reflexivity].
Defined.

(** ** Where the code departs from the specification *)

(** C2.  The amount is the largest one [to_wei] accepts; with 21000 gas at
    1 gwei the total is beyond the range of [from_wei], whose [ValueError]
    the handler reports as a 500: no cost is returned. *)
Lemma estimate_gas_total_beyond_range :
  21000 * 1000000000 + MAX_WEI > MAX_WEI
  /\ estimate_gas (Some (Mock.handle Mock.node))
       (TransactionRequest.mk Mock.alice Mock.bob
          "115792089237316195423570985008687907853269984665640564039457.584007913129639935")
       (0%nat, [])
     = (Raise (HTTPException 500 "value must be between 1 and 2**256 - 1"),
        (3%nat, [Called IsConnected None;
                 Called (EstimateGas (mkTx Mock.alice Mock.bob MAX_WEI)) None;
                 Called GasPrice None])).
Proof. split; reflexivity. Qed.

(** C6.  On a reply to the probe that is not JSON-RPC, [is_connected]
    raises and so does the health check. *)
Lemma health_check_raises_with_the_probe :
  health_check (Some Mock.garbled) (0%nat, [])
  = (Raise (PyError "JSONDecodeError" "Expecting value: line 1 column 1 (char 0)"),
     (1%nat, [Called IsConnected
                (Some (PyError "JSONDecodeError"
                         "Expecting value: line 1 column 1 (char 0)"))])).
Proof. reflexivity. Qed.

(** C9.  The exception the probe raises is an exception of the remote-call
    layer inside the handler; it is not turned into a 500 with its message
    as detail but leaves the handler as it is. *)
Lemma probe_exception_is_not_translated :
  exists r s',
    get_network_info (Some Mock.garbled) (0%nat, []) = (r, s')
    /\ In (Called IsConnected (Some Mock.not_json)) (snd s')
    /\ r = Raise Mock.not_json
    /\ r <> Raise (HTTPException 500 (str_exn Mock.not_json)).
Proof.
  eexists _, _. split; [reflexivity|]. cbn.
  split; [left; reflexivity|]. split; [reflexivity | discriminate].
Qed.

(** C5.  An amount that is no decimal is answered with status 500, not
    400. *)
Lemma unparseable_amount_is_not_400 :
  status_of (fst (estimate_gas (Some (Mock.handle Mock.node))
                    (TransactionRequest.mk Mock.alice Mock.bob "abc") (0%nat, [])))
  = Some 500
  /\ status_of (fst (estimate_gas (Some (Mock.handle Mock.node))
                       (TransactionRequest.mk Mock.alice Mock.bob "abc") (0%nat, [])))
     <> Some 400.
Proof. split; [reflexivity | discriminate]. Qed.

(** C8.  A balance of [10**18] wei is reported as ["1"], not ["1.0"]. *)
Lemma balance_over_of_one_ether :
  exists r s,
    check_balance (Some (Mock.handle Mock.node))
      (BalanceRequest.mk Mock.alice) (0%nat, []) = (Return r, s)
    /\ Balance.balance_wei r = "1000000000000000000"
    /\ Balance.balance_over r = "1"
    /\ Balance.balance_over r <> "1.0".
Proof.
  eexists _, _. split; [reflexivity|]. cbn.
  repeat split. discriminate.
Qed.

(** ** Values of the conversions *)

Example str_int_neg : str_int (-42) = "-42".
Proof. reflexivity. Qed.

Example from_wei_zero : from_wei 0 ether = Return (PyInt 0).
Proof. reflexivity. Qed.

Example from_wei_one_wei : from_wei 1 ether = Return (PyDec (mkDecimal false 1 (-18))).
Proof. reflexivity. Qed.

Example str_one_wei : str_decimal (mkDecimal false 1 (-18)) = "1E-18".
Proof. reflexivity. Qed.

Example str_one_and_a_half : str_decimal (mkDecimal false 15 (-1)) = "1.5".
Proof. reflexivity. Qed.

Example str_gas_cost : str_decimal (mkDecimal false 21 (-6)) = "0.000021".
Proof. reflexivity. Qed.

Example one_third : int_truediv 1 3 = Return (S754_finite false 6004799503160661 (-54)).
Proof. vm_compute. reflexivity. Qed.

Example zero_over_negative : int_truediv 0 (-5) = Return (S754_zero true).
Proof. reflexivity. Qed.

(** * Further properties of the handlers *)

Section Guards.

Context {World : Type}.
Implicit Types (h : Web3 World) (w : World) (log : list event).

(** The shape shared by the four handlers behind the connectivity check. *)
Lemma guarded_answers {A} (w3 : option (Web3 World))
    (body : Web3 World -> M (World := World) A) w log :
  guarded_answer w3 w
    (fst (when_connected w3 (fun h => try_except (body h) internal_error) (w, log))).
Proof.
  unfold when_connected. destruct w3 as [h|].
  - unfold bind. destruct (is_connected h w) as [[up|cls msg] w1] eqn:Hup.
    + rewrite (probe_run _ _ _ _ _ Hup).
      destruct up; cbn [negb].
      * unfold try_except.
        destruct (body h _) as [[a|e] s1]; cbn; [exact I|].
        right. left. exists e. reflexivity.
      * cbn. left. reflexivity.
    + rewrite (probe_fault_run _ _ _ _ _ _ Hup). cbn.
      right. right. exists h, cls, msg, w1. auto.
  - cbn. left. reflexivity.
Qed.

Lemma guarded_503 {A} (w3 : option (Web3 World))
    (body : Web3 World -> M (World := World) A) s :
  status_of (fst (when_connected w3 (fun h => try_except (body h) internal_error) s))
    = Some 503
  <-> fst (connected w3 s) = Return false.
Proof.
  destruct s as [w log]. unfold when_connected. destruct w3 as [h|]; cbn [connected].
  - unfold bind. destruct (is_connected h w) as [[up|cls msg] w1] eqn:Hup.
    + rewrite (probe_run _ _ _ _ _ Hup). cbn [fst].
      destruct up; cbn [negb].
      * unfold try_except.
        destruct (body h _) as [[a|e] s1]; cbn; split; discriminate.
      * cbn. split; reflexivity.
    + rewrite (probe_fault_run _ _ _ _ _ _ Hup). cbn. split; discriminate.
  - cbn. split; reflexivity.
Qed.

Lemma guarded_success {A} (w3 : option (Web3 World))
    (rest : Web3 World -> M (World := World) A) w log a s' :
  when_connected w3 rest (w, log) = (Return a, s') ->
  exists h w1,
    w3 = Some h /\ is_connected h w = (Answer true, w1)
    /\ rest h (w1, (log ++ [Called IsConnected None])%list) = (Return a, s').
Proof.
  unfold when_connected. destruct w3 as [h|]; [|discriminate].
  unfold bind. destruct (is_connected h w) as [[up|cls msg] w1] eqn:Hup.
  - rewrite (probe_run _ _ _ _ _ Hup).
    destruct up; cbn [negb]; [|discriminate].
    intros Hrest. exists h, w1. auto.
  - rewrite (probe_fault_run _ _ _ _ _ _ Hup). discriminate.
Qed.

(** *** Stopping at the first failure, combinator by combinator *)

Lemma clean_fails_last log : clean log -> fails_last log.
Proof. intros Hclean. left. exact Hclean. Qed.

Lemma stops_ret {A} (a : A) : stops_at_failure (ret (World := World) a).
Proof. intros s r s' Hclean Hrun. injection Hrun as <- <-. exact Hclean. Qed.

Lemma stops_raise {A} (e : exn) :
  stops_at_failure (raise (World := World) (A := A) e).
Proof.
  intros s r s' Hclean Hrun. injection Hrun as <- <-.
  apply clean_fails_last, Hclean.
Qed.

Lemma stops_lift {A} (x : outcome A) : stops_at_failure (lift (World := World) x).
Proof.
  intros s r s' Hclean Hrun. injection Hrun as <- <-.
  destruct x; [exact Hclean | apply clean_fails_last, Hclean].
Qed.

Lemma stops_rpc {A} (c : rpc_call) (op : World -> outcome A * World) :
  stops_at_failure (rpc c op).
Proof.
  intros [w log] r s' Hclean Hrun. unfold rpc in Hrun. cbn [fst snd] in *.
  destruct (op w) as [x w']. injection Hrun as <- <-. cbn [snd].
  destruct x as [a|e0]; cbn [raised_by].
  - apply clean_snoc, Hclean.
  - right. exists log, c, e0. auto.
Qed.

Lemma stops_bind {A B} (m : M (World := World) A) (k : A -> M (World := World) B) :
  stops_at_failure m -> (forall a, stops_at_failure (k a)) ->
  stops_at_failure (bind m k).
Proof.
  intros Hm Hk s r s' Hclean Hrun. unfold bind in Hrun.
  destruct (m s) as [[a|e0] s1] eqn:Hfirst.
  - exact (Hk a s1 r s' (Hm _ _ _ Hclean Hfirst) Hrun).
  - injection Hrun as <- <-. exact (Hm _ _ _ Hclean Hfirst).
Qed.

Lemma stops_if {A} (b : bool) (m1 m2 : M (World := World) A) :
  stops_at_failure m1 -> stops_at_failure m2 ->
  stops_at_failure (if b then m1 else m2).
Proof. destruct b; auto. Qed.

Lemma stops_try_except {A} (body : M (World := World) A) :
  stops_at_failure body -> stops_at_failure (try_except body internal_error).
Proof.
  intros Hbody s r s' Hclean Hrun. unfold try_except in Hrun.
  destruct (body s) as [[a|e0] s1] eqn:Hfirst.
  - injection Hrun as <- <-. exact (Hbody _ _ _ Hclean Hfirst).
  - injection Hrun as <- <-. exact (Hbody _ _ _ Hclean Hfirst).
Qed.

Lemma stops_when_connected {A} (w3 : option (Web3 World))
    (rest : Web3 World -> M (World := World) A) :
  (forall h, stops_at_failure (rest h)) -> stops_at_failure (when_connected w3 rest).
Proof.
  intros Hrest. unfold when_connected. destruct w3 as [h|].
  - apply stops_bind; [apply stops_rpc|].
    intros up. apply stops_if; [apply stops_raise | apply Hrest].
  - apply stops_raise.
Qed.

End Guards.

Create HintDb stops.
#[local] Hint Resolve stops_ret stops_raise stops_lift stops_rpc stops_if : stops.

Ltac stops :=
  repeat (apply stops_bind; [|intros ?]); cbn zeta; auto with stops.

Section Coverage.

Context {World : Type}.
Implicit Types (h : Web3 World) (w : World) (log : list event).

(** X1.  Whatever the handle, the node and the request, the four handlers
    behind the connectivity check return, or raise [HTTPException] 503
    with the detail of the check, or raise [HTTPException] 500 with the
    [str] of some exception, or, when the probe itself raises, let its
    exception through: nothing else leaves them. *)
Theorem handlers_raise_503_500_or_probe_fault (w3 : option (Web3 World)) w log
    (balance_request : BalanceRequest.t)
    (transaction_request : TransactionRequest.t) :
  guarded_answer w3 w (fst (get_network_info w3 (w, log)))
  /\ guarded_answer w3 w (fst (check_balance w3 balance_request (w, log)))
  /\ guarded_answer w3 w (fst (estimate_gas w3 transaction_request (w, log)))
  /\ guarded_answer w3 w (fst (get_network_analytics w3 (w, log))).
Proof. repeat split; apply guarded_answers. Qed.

(** X2.  Each of the four handlers answers 503 exactly when
    [w3.is_connected() if w3 else False] is [False] in the state it is
    started in. *)
Theorem status_503_iff_disconnected (w3 : option (Web3 World)) (s : state (World := World))
    (balance_request : BalanceRequest.t)
    (transaction_request : TransactionRequest.t) :
  (status_of (fst (get_network_info w3 s)) = Some 503
   <-> fst (connected w3 s) = Return false)
  /\ (status_of (fst (check_balance w3 balance_request s)) = Some 503
      <-> fst (connected w3 s) = Return false)
  /\ (status_of (fst (estimate_gas w3 transaction_request s)) = Some 503
      <-> fst (connected w3 s) = Return false)
  /\ (status_of (fst (get_network_analytics w3 s)) = Some 503
      <-> fst (connected w3 s) = Return false).
Proof. repeat apply conj; apply guarded_503. Qed.

(** X3.  No handler calls the node again after a call has raised: in the
    log of every run of the five handlers at most the last call raised,
    and when the handler returns a response no call raised at all. *)
Theorem handlers_stop_at_first_failure (w3 : option (Web3 World)) w
    (balance_request : BalanceRequest.t)
    (transaction_request : TransactionRequest.t) :
  let stops {A} (run : outcome A * state (World := World)) :=
    fails_last (snd (snd run))
    /\ (forall a, fst run = Return a -> clean (snd (snd run))) in
  stops (health_check w3 (w, []))
  /\ stops (get_network_info w3 (w, []))
  /\ stops (check_balance w3 balance_request (w, []))
  /\ stops (estimate_gas w3 transaction_request (w, []))
  /\ stops (get_network_analytics w3 (w, [])).
Proof.
  assert (Hstops : forall A (m : M (World := World) A),
             stops_at_failure m ->
             fails_last (snd (snd (m (w, []))))
             /\ (forall a, fst (m (w, [])) = Return a -> clean (snd (snd (m (w, [])))))).
  { intros A m Hm. pose proof (Hm (w, []) (fst (m (w, []))) (snd (m (w, []))) clean_nil
                                 (surjective_pairing _)) as Hrun.
    destruct (fst (m (w, []))) as [a|e]; split; try discriminate; auto.
    apply clean_fails_last, Hrun. }
  cbv zeta. split; [|split; [|split; [|split]]]; apply Hstops.
  - unfold health_check. apply stops_bind; [|intros ?; apply stops_ret].
    unfold connected. destruct w3; [apply stops_rpc | apply stops_ret].
  - apply stops_when_connected. intros h. apply stops_try_except. stops.
  - apply stops_when_connected. intros h. apply stops_try_except. stops.
  - apply stops_when_connected. intros h. apply stops_try_except. stops.
  - apply stops_when_connected. intros h. apply stops_try_except.
    unfold block_time_of. stops. apply stops_if; stops.
Qed.

(** X4.  A response of one of the four handlers means that the handle is
    present and that the probe of this very request answered [True]. *)
Theorem response_needs_connection (w3 : option (Web3 World)) w log
    (balance_request : BalanceRequest.t)
    (transaction_request : TransactionRequest.t) :
  let up := exists h w1, w3 = Some h /\ is_connected h w = (Answer true, w1) in
  (forall a, fst (get_network_info w3 (w, log)) = Return a -> up)
  /\ (forall a, fst (check_balance w3 balance_request (w, log)) = Return a -> up)
  /\ (forall a, fst (estimate_gas w3 transaction_request (w, log)) = Return a -> up)
  /\ (forall a, fst (get_network_analytics w3 (w, log)) = Return a -> up).
Proof.
  assert (Hup : forall A (rest : Web3 World -> M (World := World) A) a,
             fst (when_connected w3 rest (w, log)) = Return a ->
             exists h w1, w3 = Some h /\ is_connected h w = (Answer true, w1)).
  { intros A rest a Hrun.
    destruct (when_connected w3 rest (w, log)) as [r s'] eqn:Hwhen.
    cbn [fst] in Hrun. subst r.
    destruct (guarded_success _ _ _ _ _ _ Hwhen) as (h & w1 & Hsome & Hprobe & _).
    exists h, w1. auto. }
  cbv zeta. repeat apply conj; intros a; apply Hup.
Qed.

(** One step of a run [H]: the next remote call, with both of its outcomes. *)
Ltac run_rpc H :=
  match type of H with
  | context [rpc ?c ?op (?w, ?log)] =>
      let r := fresh "r" in
      let w' := fresh "w" in
      let E := fresh "E" in
      destruct (op w) as [r w'] eqn:E;
      rewrite (rpc_run c op w w' log r E) in H;
      destruct r; cbn [raised_by app] in H; cbv beta iota in H
  end.

(** The start of a run [H] of a guarded handler, in four cases: probe up,
    probe down, probe raising, no handle. *)
Ltac run_guard H w3 w :=
  unfold get_network_info, check_balance, estimate_gas, get_network_analytics in H;
  destruct w3 as [?h|];
  [ let up := fresh "up" in
    let w1 := fresh "w" in
    let Hup := fresh "Hup" in
    destruct (is_connected h w) as [[up|?cls ?msg] w1] eqn:Hup;
    [ destruct up;
      [ rewrite (when_connected_up _ _ _ _ _ Hup) in H;
        unfold try_except, bind, lift, ret, raise, internal_error in H;
        cbn [app] in H; cbv beta iota zeta in H
      | unfold when_connected, bind in H;
        rewrite (probe_run _ _ _ _ _ Hup) in H; cbn in H ]
    | unfold when_connected, bind in H;
      rewrite (probe_fault_run _ _ _ _ _ _ Hup) in H; cbn in H ]
  | cbn in H ].

(** X5.  With a connected handle, a block number [b] and a gas price [p]
    in the range of [from_wei], [get_network_info] asks for the block
    number and then for the gas price, and returns chain id 54176, [b], the
    RPC URL and the gas price in gwei, exactly [p / 10**9]. *)
Theorem get_network_info_answer h w0 w1 w2 w3 b p :
  is_connected h w0 = (Answer true, w1) ->
  eth_block_number h w1 = (Return b, w2) ->
  eth_gas_price h w2 = (Return p, w3) ->
  0 <= p <= MAX_WEI ->
  exists v,
    from_wei p gwei = Return v
    /\ in_wei v gwei = p
    /\ get_network_info (Some h) (w0, [])
       = (Return (NetworkInfo.mk 54176 b v "https://rpc.overprotocol.com"),
          (w3, [Called IsConnected None; Called BlockNumber None;
                Called GasPrice None])).
Proof.
  intros Hup Hnumber Hprice Hrange.
  destruct (from_wei_exact p gwei Hrange) as (v & Hv & Hval).
  exists v. split; [exact Hv|]. split; [exact Hval|].
  unfold get_network_info. rewrite (when_connected_up _ _ _ _ _ Hup).
  unfold try_except, bind.
  rewrite (rpc_run _ _ _ _ _ _ Hnumber), (rpc_run _ _ _ _ _ _ Hprice).
  unfold lift. rewrite Hv. reflexivity.
Qed.

(** X6.  In every run of [get_network_info] the calls are an initial part
    of: probe, block number, gas price. *)
Theorem get_network_info_calls (w3 : option (Web3 World)) w r s' :
  get_network_info w3 (w, []) = (r, s') ->
  exists n, calls (snd s') = firstn n [IsConnected; BlockNumber; GasPrice].
Proof.
  intros Hrun. run_guard Hrun w3 w.
  - run_rpc Hrun; [run_rpc Hrun|].
    + destruct (from_wei a0 gwei); injection Hrun as <- <-; exists 3%nat; reflexivity.
    + injection Hrun as <- <-. exists 3%nat. reflexivity.
    + injection Hrun as <- <-. exists 2%nat. reflexivity.
  - injection Hrun as <- <-. exists 1%nat. reflexivity.
  - injection Hrun as <- <-. exists 1%nat. reflexivity.
  - injection Hrun as <- <-. exists 0%nat. reflexivity.
Qed.

(** X7.  In every run of [check_balance] the calls are an initial part of:
    probe, balance of the requested address, latest block.  The node is
    queried only about an address that [is_address] accepted. *)
Theorem check_balance_calls (w3 : option (Web3 World)) w
    (request : BalanceRequest.t) r s' :
  check_balance w3 request (w, []) = (r, s') ->
  (exists n, calls (snd s')
             = firstn n [IsConnected;
                         GetBalance (BalanceRequest.address request);
                         GetBlock latest])
  /\ (queries (snd s') <> [] ->
      exists h, w3 = Some h
                /\ is_address h (BalanceRequest.address request) = true).
Proof.
  intros Hrun. run_guard Hrun w3 w.
  - destruct (is_address h (BalanceRequest.address request)) eqn:Hvalid;
      cbn [negb] in Hrun; cbv beta iota in Hrun.
    + assert (Hsome : exists h', Some h = Some h'
                /\ is_address h' (BalanceRequest.address request) = true)
        by (exists h; auto).
      run_rpc Hrun.
      * destruct (from_wei a ether); cbv beta iota in Hrun.
        -- run_rpc Hrun; injection Hrun as <- <-;
             (split; [exists 3%nat; reflexivity | intros _; exact Hsome]).
        -- injection Hrun as <- <-.
           split; [exists 2%nat; reflexivity | intros _; exact Hsome].
      * injection Hrun as <- <-.
        split; [exists 2%nat; reflexivity | intros _; exact Hsome].
    + injection Hrun as <- <-.
      split; [exists 1%nat; reflexivity | intros Hq; destruct Hq; reflexivity].
  - injection Hrun as <- <-.
    split; [exists 1%nat; reflexivity | intros Hq; destruct Hq; reflexivity].
  - injection Hrun as <- <-.
    split; [exists 1%nat; reflexivity | intros Hq; destruct Hq; reflexivity].
  - injection Hrun as <- <-.
    split; [exists 0%nat; reflexivity | intros Hq; destruct Hq; reflexivity].
Qed.

(** X8.  In every run of [estimate_gas] there is no call, or the probe
    alone, or else both addresses were accepted, the amount was converted
    to [a] wei, and the calls are the probe, the estimate for the
    transaction from the one address to the other with value [a], and
    possibly the gas price after it. *)
Theorem estimate_gas_calls (w3 : option (Web3 World)) w
    (request : TransactionRequest.t) r s' :
  estimate_gas w3 request (w, []) = (r, s') ->
  calls (snd s') = []
  \/ calls (snd s') = [IsConnected]
  \/ exists h a,
      w3 = Some h
      /\ is_address h (TransactionRequest.from_address request) = true
      /\ is_address h (TransactionRequest.to_address request) = true
      /\ to_wei h (TransactionRequest.amount request) ether = Return a
      /\ let tx := mkTx (TransactionRequest.from_address request)
                        (TransactionRequest.to_address request) a in
         calls (snd s') = [IsConnected; EstimateGas tx]
         \/ calls (snd s') = [IsConnected; EstimateGas tx; GasPrice].
Proof.
  intros Hrun. run_guard Hrun w3 w.
  - destruct (is_address h (TransactionRequest.from_address request)) eqn:Hfrom;
      cbn [negb orb] in Hrun.
    + destruct (is_address h (TransactionRequest.to_address request)) eqn:Hto;
        cbn [negb] in Hrun; cbv beta iota in Hrun.
      * destruct (to_wei h (TransactionRequest.amount request) ether) as [a|e] eqn:Hamount;
          cbv beta iota in Hrun.
        -- right. right. exists h, a. repeat (split; [assumption || reflexivity|]).
           cbv zeta. run_rpc Hrun.
           ++ run_rpc Hrun.
              ** destruct (from_wei a1 gwei); cbv beta iota in Hrun;
                   [destruct (from_wei (a0 * a1 + a) ether); cbv beta iota in Hrun;
                    [destruct (from_wei (a0 * a1) ether)|]|];
                   injection Hrun as <- <-; right; reflexivity.
              ** injection Hrun as <- <-. right. reflexivity.
           ++ injection Hrun as <- <-. left. reflexivity.
        -- injection Hrun as <- <-. right. left. reflexivity.
      * injection Hrun as <- <-. right. left. reflexivity.
    + cbv beta iota in Hrun. injection Hrun as <- <-. right. left. reflexivity.
  - injection Hrun as <- <-. right. left. reflexivity.
  - injection Hrun as <- <-. right. left. reflexivity.
  - injection Hrun as <- <-. left. reflexivity.
Qed.

(** X9.  In every run of [get_network_analytics] the calls are an initial
    part of: probe, latest block; or these two followed by one more block
    request, made only when the node's latest block has a positive number,
    and then for the number before it (so never for a negative number). *)
Theorem get_network_analytics_calls (w3 : option (Web3 World)) w r s' :
  get_network_analytics w3 (w, []) = (r, s') ->
  (exists n, calls (snd s') = firstn n [IsConnected; GetBlock latest])
  \/ exists h w1 w2 blk,
      w3 = Some h
      /\ is_connected h w = (Answer true, w1)
      /\ eth_get_block h latest w1 = (Return blk, w2)
      /\ 0 <= number blk - 1
      /\ calls (snd s')
         = [IsConnected; GetBlock latest; GetBlock (block_no (number blk - 1))].
Proof.
  intros Hrun. run_guard Hrun w3 w.
  - run_rpc Hrun.
    + unfold block_time_of, bind, ret in Hrun.
      destruct (number a >? 0)%Z eqn:Hpos; cbv beta iota zeta in Hrun.
      * right. exists h, w0, w1, a.
        apply Z.gtb_lt in Hpos.
        repeat (split; [assumption || reflexivity || lia|]).
        run_rpc Hrun.
        -- unfold lift in Hrun.
           destruct (int_truediv (gasUsed a) (gasLimit a));
             injection Hrun as <- <-; reflexivity.
        -- injection Hrun as <- <-. reflexivity.
      * left. exists 2%nat. unfold lift in Hrun.
        destruct (int_truediv (gasUsed a) (gasLimit a));
          injection Hrun as <- <-; reflexivity.
    + left. injection Hrun as <- <-. exists 2%nat. reflexivity.
  - left. injection Hrun as <- <-. exists 1%nat. reflexivity.
  - left. injection Hrun as <- <-. exists 1%nat. reflexivity.
  - left. injection Hrun as <- <-. exists 0%nat. reflexivity.
Qed.

(** What [from_wei] returns is exact, and it returns only in its range. *)
Lemma from_wei_returns (n : Z) (u : unit_name) (v : pynum) :
  from_wei n u = Return v -> 0 <= n <= MAX_WEI /\ in_wei v u = n.
Proof.
  intros Hv.
  assert (Hrange : 0 <= n <= MAX_WEI).
  { unfold from_wei in Hv. destruct (n =? 0)%Z eqn:Hz.
    - apply Z.eqb_eq in Hz. subst n. split; [lia | discriminate].
    - destruct ((n <? MIN_WEI) || (MAX_WEI <? n))%Z eqn:Hout; [discriminate|].
      apply orb_false_iff in Hout as [Hlo Hhi].
      apply Z.ltb_ge in Hlo, Hhi. unfold MIN_WEI in Hlo. lia. }
  split; [exact Hrange|].
  destruct (from_wei_exact n u Hrange) as (v' & Hv' & Hval).
  rewrite Hv in Hv'. injection Hv' as <-. exact Hval.
Qed.

(** [str] of an integer reads back as that integer. *)
Lemma read_int_str_int (n : Z) : read_int (str_int n) = Some n.
Proof.
  unfold read_int, str_int. rewrite NilZero.isi.
  - cbn [option_map]. rewrite DecimalZ.of_to. reflexivity.
  - destruct n as [|p|p]; cbn; try discriminate.
    intros H. injection H as H. exact (DecimalPos.Unsigned.to_uint_nonnil p H).
  - destruct n as [|p|p]; cbn; try discriminate.
    intros H. injection H as H. exact (DecimalPos.Unsigned.to_uint_nonnil p H).
Qed.


(** X11.  Every response of [check_balance] is consistent with what the
    node answered in this run: it carries the address of the request,
    which [is_address] accepted; its [balance_wei] is [str(B)] for the
    balance [B] that the node returned for that address, it reads back as
    [B], and [B] lies between 0 and [2**256 - 1]; its [balance_over] is
    the [str] of [from_wei(B)], a value that is exactly [B / 10**18]; and
    its timestamp is that of the latest block, fetched after the
    balance. *)
Theorem check_balance_response_consistent (w3 : option (Web3 World)) w
    (request : BalanceRequest.t) resp s' :
  check_balance w3 request (w, []) = (Return resp, s') ->
  exists h w1 w2 B blk v,
    w3 = Some h
    /\ is_connected h w = (Answer true, w1)
    /\ is_address h (BalanceRequest.address request) = true
    /\ eth_get_balance h (BalanceRequest.address request) w1 = (Return B, w2)
    /\ eth_get_block h latest w2 = (Return blk, fst s')
    /\ Balance.address resp = BalanceRequest.address request
    /\ Balance.balance_wei resp = str_int B
    /\ read_int (Balance.balance_wei resp) = Some B
    /\ 0 <= B <= MAX_WEI
    /\ from_wei B ether = Return v
    /\ Balance.balance_over resp = str_number v
    /\ in_wei v ether = B
    /\ Balance.timestamp resp = timestamp blk.
Proof.
  intros Hrun. run_guard Hrun w3 w; try discriminate.
  destruct (is_address h (BalanceRequest.address request)) eqn:Hvalid;
    cbn [negb] in Hrun; cbv beta iota in Hrun; [|discriminate].
  run_rpc Hrun; [|discriminate].
  destruct (from_wei a ether) as [v|] eqn:Hv; cbv beta iota in Hrun; [|discriminate].
  run_rpc Hrun; [|discriminate].
  injection Hrun as <- <-. cbn.
  pose proof (from_wei_returns _ _ _ Hv) as [Hrange Hval].
  exists h, w0, w1, a, a0, v.
  repeat (split; [assumption || reflexivity || apply read_int_str_int|]).
  reflexivity.
Qed.

(** X12.  When the construction of the handle raises at start-up, the
    service runs without a handle: the health check reports
    [over_protocol_connected = False], the four other handlers answer 503,
    and neither start-up nor the request sends anything to the node. *)
Theorem failed_startup_disables_service (e : exn) w
    (balance_request : BalanceRequest.t)
    (transaction_request : TransactionRequest.t) :
  let after_startup {A} (handler : option (Web3 World) -> M A) :=
    (handle <- initialize (Raise e) ;; handler handle) (w, []) in
  after_startup health_check
    = (Return (Health.mk "healthy" false 54176), (w, []))
  /\ after_startup get_network_info
    = (Raise (HTTPException 503 "Not connected to Over Protocol"), (w, []))
  /\ after_startup (fun handle => check_balance handle balance_request)
    = (Raise (HTTPException 503 "Not connected to Over Protocol"), (w, []))
  /\ after_startup (fun handle => estimate_gas handle transaction_request)
    = (Raise (HTTPException 503 "Not connected to Over Protocol"), (w, []))
  /\ after_startup get_network_analytics
    = (Raise (HTTPException 503 "Not connected to Over Protocol"), (w, [])).
Proof. repeat split. Qed.

(** X13.  The answer of the probe at start-up is not remembered: a node
    that was down at start-up and is up when a request arrives is probed
    again, and the health check reports it as connected. *)
Theorem startup_probe_is_not_remembered h w0 w1 w2 :
  is_connected h w0 = (Answer false, w1) ->
  is_connected h w1 = (Answer true, w2) ->
  (handle <- initialize (Return h) ;; health_check handle) (w0, [])
  = (Return (Health.mk "healthy" true 54176),
     (w2, [Called IsConnected None; Called IsConnected None])).
Proof.
  intros Hdown Hup. unfold initialize, try_except, bind, lift.
  rewrite (probe_run _ _ _ _ _ Hdown). cbn [ret].
  rewrite (health_check_run_some _ _ _ _ _ Hup). reflexivity.
Qed.

(** X14.  A latest block that used no gas, under a positive gas limit,
    is reported with a utilization of exactly [0.0]. *)
Theorem unused_block_has_zero_utilization h w0 w1 w2 s3 blk bt :
  is_connected h w0 = (Answer true, w1) ->
  eth_get_block h latest w1 = (Return blk, w2) ->
  block_time_of h blk
    (w2, [Called IsConnected None; Called (GetBlock latest) None])
    = (Return bt, s3) ->
  gasUsed blk = 0 ->
  0 < gasLimit blk ->
  get_network_analytics (Some h) (w0, [])
  = (Return (Analytics.mk (number blk) (timestamp blk)
               (Z.of_nat (List.length (transactions blk))) bt
               (gasLimit blk) 0 (S754_zero false)), s3).
Proof.
  intros Hup Hblk Htime Hused Hlimit.
  rewrite (get_network_analytics_run _ _ _ _ _ _ _ Hup Hblk Htime), Hused.
  unfold int_truediv.
  replace (gasLimit blk =? 0)%Z with false by (symmetry; apply Z.eqb_neq; lia).
  replace (gasLimit blk <? 0)%Z with false by (symmetry; apply Z.ltb_ge; lia).
  reflexivity.
Qed.

End Coverage.

(** ** The further properties on the scripted nodes *)

Lemma handlers_stop_at_first_failure_witness :
  fails_last
    (snd (snd (check_balance (Some (Mock.handle Mock.node_failing))
                 (BalanceRequest.mk Mock.alice) (0%nat, []))))
  /\ clean
       (snd (snd (check_balance (Some (Mock.handle Mock.node))
                    (BalanceRequest.mk Mock.alice) (0%nat, [])))).
Proof.
  split.
  - exact (proj1 (proj1 (proj2 (proj2
             (handlers_stop_at_first_failure (Some (Mock.handle Mock.node_failing)) 0%nat
                (BalanceRequest.mk Mock.alice)
                (TransactionRequest.mk Mock.alice Mock.bob "1.5")))))).
  - exact (proj2 (proj1 (proj2 (proj2
             (handlers_stop_at_first_failure (Some (Mock.handle Mock.node)) 0%nat
                (BalanceRequest.mk Mock.alice)
                (TransactionRequest.mk Mock.alice Mock.bob "1.5")))))
             _ eq_refl).
Defined.

Lemma response_needs_connection_witness :
  exists h w1,
    Some (Mock.handle Mock.node) = Some h /\ is_connected h 0%nat = (Answer true, w1).
Proof.
  exact (proj1 (response_needs_connection (Some (Mock.handle Mock.node)) 0%nat []
                  (BalanceRequest.mk Mock.alice)
                  (TransactionRequest.mk Mock.alice Mock.bob "1.5"))
           _ eq_refl).
Defined.

Lemma get_network_info_answer_witness :
  exists v,
    from_wei 1000000000 gwei = Return v
    /\ in_wei v gwei = 1000000000
    /\ get_network_info (Some (Mock.handle Mock.node)) (0%nat, [])
       = (Return (NetworkInfo.mk 54176 7 v "https://rpc.overprotocol.com"),
          (3%nat, [Called IsConnected None; Called BlockNumber None;
                   Called GasPrice None])).
Proof.
  apply (get_network_info_answer (Mock.handle Mock.node) 0%nat 1%nat 2%nat 3%nat
           7 1000000000);
    try reflexivity.
  split; vm_compute; discriminate.
Defined.

Lemma get_network_info_calls_witness :
  exists n,
    calls (snd (snd (get_network_info (Some (Mock.handle Mock.node_failing)) (0%nat, []))))
    = firstn n [IsConnected; BlockNumber; GasPrice].
Proof.
  exact (get_network_info_calls (Some (Mock.handle Mock.node_failing)) 0%nat _ _
           (surjective_pairing _)).
Defined.

Lemma check_balance_calls_witness :
  exists h,
    Some (Mock.handle Mock.node) = Some h /\ is_address h Mock.alice = true.
Proof.
  refine (proj2 (check_balance_calls (Some (Mock.handle Mock.node)) 0%nat
                   (BalanceRequest.mk Mock.alice) _ _ (surjective_pairing _)) _).
  discriminate.
Defined.

Lemma estimate_gas_calls_witness :
  let s' := snd (estimate_gas (Some (Mock.handle Mock.node))
                   (TransactionRequest.mk Mock.alice Mock.bob "1.5") (0%nat, [])) in
  calls (snd s') = []
  \/ calls (snd s') = [IsConnected]
  \/ exists h a,
      Some (Mock.handle Mock.node) = Some h
      /\ is_address h Mock.alice = true
      /\ is_address h Mock.bob = true
      /\ to_wei h "1.5" ether = Return a
      /\ (calls (snd s') = [IsConnected; EstimateGas (mkTx Mock.alice Mock.bob a)]
          \/ calls (snd s')
             = [IsConnected; EstimateGas (mkTx Mock.alice Mock.bob a); GasPrice]).
Proof.
  exact (estimate_gas_calls (Some (Mock.handle Mock.node)) 0%nat
           (TransactionRequest.mk Mock.alice Mock.bob "1.5") _ _
           (surjective_pairing _)).
Defined.

Lemma get_network_analytics_calls_witness :
  let s' := snd (get_network_analytics (Some (Mock.handle Mock.node)) (0%nat, [])) in
  (exists n, calls (snd s') = firstn n [IsConnected; GetBlock latest])
  \/ exists h w1 w2 blk,
      Some (Mock.handle Mock.node) = Some h
      /\ is_connected h 0%nat = (Answer true, w1)
      /\ eth_get_block h latest w1 = (Return blk, w2)
      /\ 0 <= number blk - 1
      /\ calls (snd s')
         = [IsConnected; GetBlock latest; GetBlock (block_no (number blk - 1))].
Proof.
  exact (get_network_analytics_calls (Some (Mock.handle Mock.node)) 0%nat _ _
           (surjective_pairing _)).
Defined.


Lemma check_balance_response_consistent_witness :
  exists h w1 w2 B blk v,
    Some (Mock.handle Mock.node) = Some h
    /\ is_connected h 0%nat = (Answer true, w1)
    /\ is_address h Mock.alice = true
    /\ eth_get_balance h Mock.alice w1 = (Return B, w2)
    /\ eth_get_block h latest w2 = (Return blk, 3%nat)
    /\ Mock.alice = Mock.alice
    /\ "1000000000000000000" = str_int B
    /\ read_int "1000000000000000000" = Some B
    /\ 0 <= B <= MAX_WEI
    /\ from_wei B ether = Return v
    /\ "1" = str_number v
    /\ in_wei v ether = B
    /\ 1000 = timestamp blk.
Proof.
  exact (check_balance_response_consistent (Some (Mock.handle Mock.node)) 0%nat
           (BalanceRequest.mk Mock.alice)
           (Balance.mk Mock.alice "1" "1000000000000000000" 1000)
           _ eq_refl).
Defined.

Lemma startup_probe_is_not_remembered_witness :
  (handle <- initialize (Return Mock.recovering) ;; health_check handle) (0%nat, [])
  = (Return (Health.mk "healthy" true 54176),
     (2%nat, [Called IsConnected None; Called IsConnected None])).
Proof.
  apply (startup_probe_is_not_remembered Mock.recovering 0%nat 1%nat 2%nat);
    reflexivity.
Defined.

Lemma unused_block_has_zero_utilization_witness :
  get_network_analytics (Some (Mock.handle Mock.node_genesis)) (0%nat, [])
  = (Return (Analytics.mk 0 1700000000 0 0 30000000 0 (S754_zero false)),
     (2%nat, [Called IsConnected None; Called (GetBlock latest) None])).
Proof.
  apply (unused_block_has_zero_utilization (Mock.handle Mock.node_genesis)
           0%nat 1%nat 2%nat
           (2%nat, [Called IsConnected None; Called (GetBlock latest) None])
           Mock.genesis 0);
    reflexivity.
Defined.
